(** * Lylyt, [models/setup_vosk.py]: the Vosk model setup script

    A shallow embedding of the script and the properties of its four steps
    (fetch, extract, install, clean up).

    The script talks to three things outside itself: the network (through
    [requests]), a zip decoder ([zipfile]) and the file system.  They are
    modelled as follows.

    - The file system is a tree of named nodes, rooted at the parent of the
      invocation directory, so that [Path("vosk-model.zip")] is
      [[cwd; "vosk-model.zip"]] and [Path("../android/...")] is
      [["android"; ...]].  A directory holds its entries in listing order
      (the order [os.scandir] enumerates them).  There are no symbolic
      links, permissions or quotas: a call fails only for the reasons the
      tree can express (missing entry, file where a directory is needed,
      directory where a file is needed, entry already there).
    - The answer of the server is an input of the run: a connection
      failure, or a response with its status, its [content-length] header
      and the chunks [iter_content] yields.
    - The zip decoder is a parameter [unzip], from the bytes of the archive
      to its member list.
    - Python's [float] is IEEE 754 binary64, as the Standard Library
      specifies it ([SpecFloat], precision 53, [emax] 1024): the division
      of two [int]s and the product by 100 are each rounded to the nearest
      double, ties to even, and the text [{percent:.1f}] is the exact value
      of the resulting double rounded to one decimal, ties to even.  Python
      raises [OverflowError] where the quotient is beyond the doubles, which
      takes a counter of 2^1024 bytes; the model has the infinity there.

    What the script prints and every file-system call it makes are
    recorded, in order, in a trace. *)

From Stdlib Require Import List String Ascii ZArith QArith Qround Lia Bool.
From Stdlib Require Import SpecFloat.
From Stdlib.Strings Require Import Byte.
Import ListNotations.

Local Open Scope string_scope.
Local Open Scope list_scope.
Local Open Scope Z_scope.

Set Implicit Arguments.
Set Warnings "-register-all,-abstract-large-number".

(* ================================================================== *)
(** * Python results *)
(* ================================================================== *)

(** The exceptions the script can die of. *)
Inductive exn : Type :=
| ConnectionError        (* requests.get could not reach the server *)
| HTTPError              (* response.raise_for_status() *)
| ChunkedEncodingError   (* the body stream broke inside iter_content *)
| ValueError             (* int() of a malformed content-length *)
| BadZipFile             (* zipfile.ZipFile on bytes that are no archive *)
| IndexError             (* [0] of an empty list *)
| FileNotFoundError
| NotADirectoryError
| IsADirectoryError
| FileExistsError
| PermissionError.

Inductive result (A : Type) : Type :=
| Ok (a : A)
| Raise (e : exn).

Arguments Ok {A} a.
Arguments Raise {A} e.

(* ================================================================== *)
(** * The file system *)
(* ================================================================== *)

Module FS.

Definition path : Type := list string.
Definition bytes : Type := list byte.

Inductive node : Type :=
| File (data : bytes)
| Dir (entries : list (string * node)).

(** ** One directory: entries in listing order *)

Fixpoint entry_get (name : string) (es : list (string * node)) : option node :=
  match es with
  | [] => None
  | (k, v) :: rest => if String.eqb name k then Some v else entry_get name rest
  end.

(** An existing entry is replaced in place, a new one goes to the end of
    the listing. *)
Fixpoint entry_set (name : string) (v : node) (es : list (string * node))
  : list (string * node) :=
  match es with
  | [] => [(name, v)]
  | (k, w) :: rest =>
      if String.eqb name k then (k, v) :: rest else (k, w) :: entry_set name v rest
  end.

Definition entry_del (name : string) (es : list (string * node))
  : list (string * node) :=
  filter (fun kv => negb (String.eqb name (fst kv))) es.

Definition entry_put (name : string) (o : option node) (es : list (string * node))
  : list (string * node) :=
  match o with
  | Some v => entry_set name v es
  | None => entry_del name es
  end.

(** ** Path resolution

    [None] stands for "nothing there".  The walk is written on
    [option node] so that a missing directory and a directory being
    created are handled by the same recursion. *)

Fixpoint lookup_opt (p : path) (o : option node) : option node :=
  match p with
  | [] => o
  | c :: q =>
      match o with
      | Some (Dir es) => lookup_opt q (entry_get c es)
      | _ => None
      end
  end.

(** [alter_opt parents f p o] walks down [p] and applies [f] to what is at
    its end.  A file on the way is [NotADirectoryError]; a missing
    directory on the way is created when [parents] is set ([os.makedirs],
    [mkdir(parents=True)]) and is [FileNotFoundError] otherwise. *)
Fixpoint alter_opt (parents : bool) (f : option node -> result (option node))
    (p : path) (o : option node) : result (option node) :=
  match p with
  | [] => f o
  | c :: q =>
      match o with
      | Some (File _) => Raise NotADirectoryError
      | Some (Dir es) =>
          match alter_opt parents f q (entry_get c es) with
          | Ok r => Ok (Some (Dir (entry_put c r es)))
          | Raise e => Raise e
          end
      | None =>
          if parents then
            match alter_opt parents f q None with
            | Ok r => Ok (Some (Dir (entry_put c r [])))
            | Raise e => Raise e
            end
          else Raise FileNotFoundError
      end
  end.

Definition fs_lookup (p : path) (root : node) : option node :=
  lookup_opt p (Some root).

(** The root itself cannot be removed. *)
Definition fs_alter (parents : bool) (f : option node -> result (option node))
    (p : path) (root : node) : result node :=
  match alter_opt parents f p (Some root) with
  | Ok (Some root') => Ok root'
  | Ok None => Raise PermissionError
  | Raise e => Raise e
  end.

(** Two paths diverge when they differ at a component both have: neither
    is then inside the other. *)
Fixpoint diverge (p q : path) : bool :=
  match p, q with
  | c :: p', d :: q' => if String.eqb c d then diverge p' q' else true
  | _, _ => false
  end.

(** ** What the calls of the script do at the end of the path *)

(** [open(p, 'wb')]: creates or truncates a file. *)
Definition do_open_wb (o : option node) : result (option node) :=
  match o with
  | Some (Dir _) => Raise IsADirectoryError
  | _ => Ok (Some (File []))
  end.

(** [f.write(chunk)] on the file opened at this place. *)
Definition do_append (chunk : bytes) (o : option node) : result (option node) :=
  match o with
  | Some (File data) => Ok (Some (File (data ++ chunk)))
  | Some (Dir _) => Raise IsADirectoryError
  | None => Raise FileNotFoundError
  end.

(** [open(p, 'wb')] followed by writing [data] ([zipfile] extracting a
    file member). *)
Definition do_write_file (data : bytes) (o : option node) : result (option node) :=
  match o with
  | Some (Dir _) => Raise IsADirectoryError
  | _ => Ok (Some (File data))
  end.

(** [os.mkdir(p)] and the last step of [os.makedirs(p)]. *)
Definition do_mkdir (o : option node) : result (option node) :=
  match o with
  | None => Ok (Some (Dir []))
  | Some _ => Raise FileExistsError
  end.

(** [Path.mkdir(parents=True, exist_ok=True)]: an existing directory is
    left as it is. *)
Definition do_mkdir_exist_ok (o : option node) : result (option node) :=
  match o with
  | None => Ok (Some (Dir []))
  | Some (Dir es) => Ok (Some (Dir es))
  | Some (File _) => Raise FileExistsError
  end.

(** [shutil.rmtree(p)]. *)
Definition do_rmtree (o : option node) : result (option node) :=
  match o with
  | Some (Dir _) => Ok None
  | Some (File _) => Raise NotADirectoryError
  | None => Raise FileNotFoundError
  end.

(** [Path.unlink()]. *)
Definition do_unlink (o : option node) : result (option node) :=
  match o with
  | Some (File _) => Ok None
  | Some (Dir _) => Raise IsADirectoryError
  | None => Raise FileNotFoundError
  end.

(** The destination of [shutil.copytree(src, dst)]: [os.makedirs(dst)]
    refuses an existing [dst], then the tree is copied into it. *)
Definition do_place (tree : list (string * node)) (o : option node)
  : result (option node) :=
  match o with
  | None => Ok (Some (Dir tree))
  | Some _ => Raise FileExistsError
  end.

(** [Path(dir).glob(prefix + "*")]: the entries of [dir] whose name starts
    with [prefix], files and directories alike, in listing order; nothing
    when [dir] is not a directory. *)
Definition glob_prefix (dir : path) (prefix : string) (root : node) : list path :=
  match fs_lookup dir root with
  | Some (Dir es) =>
      map (fun kv => dir ++ [fst kv])
          (filter (fun kv => String.prefix prefix (fst kv)) es)
  | _ => []
  end.

(** [sum(f.stat().st_size for f in p.rglob('*') if f.is_file())]. *)
Fixpoint tree_size (n : node) : Z :=
  match n with
  | File data => Z.of_nat (List.length data)
  | Dir es =>
      (fix sum (l : list (string * node)) : Z :=
         match l with
         | [] => 0
         | (_, child) :: rest => tree_size child + sum rest
         end) es
  end.

End FS.
Import FS.

(* ================================================================== *)
(** * Running the script: state, trace and exceptions *)
(* ================================================================== *)

(** What the script prints and the file-system and network calls it makes.
    A call is recorded when it is made, whether it then succeeds or raises. *)
Inductive event : Type :=
| EvPrint (line : string)     (* a printed line, without its line breaks *)
| EvProgress (tenths : Z)    (* the text "\rProgress: d.d%", d.d = tenths / 10 *)
| EvSize (size : Z)          (* the text "Size: <size / 1024 / 1024> MB" *)
| EvGet (url : string)
| EvOpenWb (p : path)
| EvWrite (p : path) (n : nat)
| EvExtractall (archive target : path)
| EvMkdir (p : path)
| EvGlob (dir : path) (prefix : string)
| EvExists (p : path)
| EvRmtree (p : path)
| EvCopytree (src dst : path)
| EvUnlink (p : path)
| EvRglob (p : path).

Record state : Type := mkState { fs : node; trace : list event }.

(** A computation runs from a state to a value or an exception, and to the
    state it leaves behind: an exception undoes nothing. *)
Definition M (A : Type) : Type := state -> result A * state.

Definition ret {A : Type} (a : A) : M A := fun s => (Ok a, s).

Definition bind {A B : Type} (m : M A) (k : A -> M B) : M B :=
  fun s =>
    match m s with
    | (Ok a, s1) => k a s1
    | (Raise e, s1) => (Raise e, s1)
    end.

Definition raise {A : Type} (e : exn) : M A := fun s => (Raise e, s).

Definition emit (ev : event) : M unit :=
  fun s => (Ok tt, mkState (fs s) (trace s ++ [ev])).

Definition get_fs : M node := fun s => (Ok (fs s), s).

Definition syscall (op : node -> result node) : M unit :=
  fun s =>
    match op (fs s) with
    | Ok root => (Ok tt, mkState root (trace s))
    | Raise e => (Raise e, s)
    end.

Declare Scope py_scope.
Delimit Scope py_scope with py.
Notation "x <- m ;; k" := (bind m (fun x => k))
  (at level 61, m at next level, right associativity) : py_scope.
Notation "m ;; k" := (bind m (fun _ => k))
  (at level 61, right associativity) : py_scope.
Local Open Scope py_scope.

Fixpoint for_each {A : Type} (f : A -> M unit) (l : list A) : M unit :=
  match l with
  | [] => ret tt
  | x :: rest => f x ;; for_each f rest
  end.

(** ** The library calls the script makes *)

Definition print (line : string) : M unit := emit (EvPrint line).

Definition open_wb (p : path) : M unit :=
  emit (EvOpenWb p) ;; syscall (fs_alter false do_open_wb p).

Definition write (p : path) (chunk : bytes) : M unit :=
  emit (EvWrite p (List.length chunk)) ;; syscall (fs_alter false (do_append chunk) p).

Definition read_file (p : path) : M bytes :=
  root <- get_fs ;;
  match fs_lookup p root with
  | Some (File data) => ret data
  | Some (Dir _) => raise IsADirectoryError
  | None => raise FileNotFoundError
  end.

Definition mkdir_parents_exist_ok (p : path) : M unit :=
  emit (EvMkdir p) ;; syscall (fs_alter true do_mkdir_exist_ok p).

Definition glob (dir : path) (prefix : string) : M (list path) :=
  emit (EvGlob dir prefix) ;;
  root <- get_fs ;;
  ret (glob_prefix dir prefix root).

(** [l[0]]. *)
Definition index0 {A : Type} (l : list A) : M A :=
  match l with
  | x :: _ => ret x
  | [] => raise IndexError
  end.

Definition path_exists (p : path) : M bool :=
  emit (EvExists p) ;;
  root <- get_fs ;;
  ret (match fs_lookup p root with Some _ => true | None => false end).

Definition rmtree (p : path) : M unit :=
  emit (EvRmtree p) ;; syscall (fs_alter false do_rmtree p).

Definition unlink (p : path) : M unit :=
  emit (EvUnlink p) ;; syscall (fs_alter false do_unlink p).

(** [shutil.copytree(src, dst)]: [src] is listed first, then [dst] is made
    (with its parents) and receives the copy.  The script only calls it
    with [dst] outside [src]. *)
Definition copytree (src dst : path) : M unit :=
  emit (EvCopytree src dst) ;;
  root <- get_fs ;;
  match fs_lookup src root with
  | Some (Dir tree) => syscall (fs_alter true (do_place tree) dst)
  | Some (File _) => raise NotADirectoryError
  | None => raise FileNotFoundError
  end.

(** ** The network *)

(** The [content-length] header: absent, or present with the value [int()]
    reads from it ([None] when [int()] raises). *)
Inductive header : Type :=
| Absent
| Present (value : option Z).

Record response : Type := mkResponse {
  status_code : Z;
  content_length : header;
  chunks : list bytes;       (* what iter_content(chunk_size=8192) yields *)
  stream_broken : bool       (* the stream raises after these chunks *)
}.

Inductive network : Type :=
| Unreachable
| Responds (r : response).

Definition requests_get (net : network) (url : string) : M response :=
  emit (EvGet url) ;;
  match net with
  | Unreachable => raise ConnectionError
  | Responds r => ret r
  end.

(** [requests] raises for the client and server error statuses. *)
Definition is_error_status (code : Z) : bool :=
  (400 <=? code) && (code <? 600).

Definition raise_for_status (r : response) : M unit :=
  if is_error_status (status_code r) then raise HTTPError else ret tt.

(** [int(response.headers.get('content-length', 0))]. *)
Definition header_int (h : header) : M Z :=
  match h with
  | Absent => ret 0
  | Present (Some n) => ret n
  | Present None => raise ValueError
  end.

(** ** Progress *)

(** An [int] as the operand of a float operation. *)
Definition float_of_int (n : Z) : spec_float :=
  match n with
  | Z0 => S754_zero false
  | Zpos p => S754_finite false p 0
  | Zneg p => S754_finite true p 0
  end.

(** [a / b] on two [int]s: the double nearest to the quotient. *)
Definition true_divide (a b : Z) : spec_float :=
  SFdiv 53 1024 (float_of_int a) (float_of_int b).

(** [(downloaded / total) * 100]. *)
Definition percent (downloaded total : Z) : spec_float :=
  SFmul 53 1024 (true_divide downloaded total) (float_of_int 100).

(** The number a finite double stands for. *)
Definition float_value (x : spec_float) : Q :=
  match x with
  | S754_finite s m e => (inject_Z (cond_Zopp s (Zpos m)) * Qpower 2 e)%Q
  | _ => 0%Q
  end.

Definition round_half_even (q : Q) : Z :=
  let f := Qfloor q in
  match Qcompare (q - inject_Z f) (1 # 2) with
  | Lt => f
  | Gt => f + 1
  | Eq => if Z.even f then f else f + 1
  end.

(** [f"{x:.1f}"], as a number of tenths. *)
Definition format_1f (x : spec_float) : Z := round_half_even (float_value x * 10)%Q.

(** ** [download_file] *)

(** One turn of [for chunk in response.iter_content(...)]. *)
Definition download_chunk (destination : path) (total downloaded : Z) (chunk : bytes)
  : M Z :=
  match chunk with
  | [] => ret downloaded
  | _ :: _ =>
      write destination chunk ;;
      let downloaded := downloaded + Z.of_nat (List.length chunk) in
      (if 0 <? total
       then emit (EvProgress (format_1f (percent downloaded total)))
       else ret tt) ;;
      ret downloaded
  end.

Fixpoint download_loop (destination : path) (total : Z) (l : list bytes)
    (downloaded : Z) : M Z :=
  match l with
  | [] => ret downloaded
  | chunk :: rest =>
      d <- download_chunk destination total downloaded chunk ;;
      download_loop destination total rest d
  end.

Definition download_file (net : network) (url : string) (destination : path) : M unit :=
  print "Downloading Vosk model..." ;;
  response <- requests_get net url ;;
  raise_for_status response ;;
  total <- header_int (content_length response) ;;
  let downloaded := 0 in
  open_wb destination ;;
  _ <- download_loop destination total (chunks response) downloaded ;;
  (if stream_broken response then raise ChunkedEncodingError else ret tt) ;;
  print "Download complete!".

(** ** [zipfile] *)

Inductive member : Type :=
| MemberDir (name : path)
| MemberFile (name : path) (data : bytes).

Definition member_name (m : member) : path :=
  match m with
  | MemberDir name => name
  | MemberFile name _ => name
  end.

(** [ZipFile._extract_member]: the directories above the target are made
    when missing, then a directory member is made unless it is there, and a
    file member is written.  [name] is the sanitised member name, split
    into components. *)
Definition extract_member (target_dir : path) (m : member) : M unit :=
  let name := member_name m in
  let target := target_dir ++ name in
  (match name with
   | [] => ret tt
   | _ :: _ =>
       let upperdirs := target_dir ++ removelast name in
       root <- get_fs ;;
       match fs_lookup upperdirs root with
       | Some _ => ret tt
       | None => syscall (fs_alter true do_mkdir upperdirs)
       end
   end) ;;
  match m with
  | MemberDir _ =>
      root <- get_fs ;;
      match fs_lookup target root with
      | Some (Dir _) => ret tt
      | _ => syscall (fs_alter false do_mkdir target)
      end
  | MemberFile _ data => syscall (fs_alter false (do_write_file data) target)
  end.

(* ================================================================== *)
(** * The script *)
(* ================================================================== *)

Section Script.

(** The name of the invocation directory inside its parent. *)
Variable cwd : string.

(** [zipfile]'s reading of an archive: its members in archive order, or
    [None] when the bytes are not a readable archive. *)
Variable unzip : bytes -> option (list member).

(** [with zipfile.ZipFile(archive, 'r') as zip_ref: zip_ref.extractall(target)]. *)
Definition extractall (archive target : path) : M unit :=
  emit (EvExtractall archive target) ;;
  data <- read_file archive ;;
  match unzip data with
  | None => raise BadZipFile
  | Some members => for_each (extract_member target) members
  end.

Definition model_url : string :=
  "https://alphacephei.com/vosk/models/vosk-model-small-en-us-0.15.zip".

Definition model_zip : path := [cwd; "vosk-model.zip"].

Definition extract_dir : path := [cwd; "vosk_model"].

Definition android_assets : path :=
  ["android"; "app"; "src"; "main"; "assets"; "vosk"].

Definition dest_model : path := android_assets ++ ["model"].

Definition banner : M unit :=
  print "Lylyt - Setting up Vosk STT Model" ;;
  print (String.concat "" (repeat "=" 60)).

(** Lines 35-36. *)
Definition fetch (net : network) : M unit :=
  print "Downloading Vosk small English model (40MB)..." ;;
  download_file net model_url model_zip.

(** Lines 38-42. *)
Definition extract : M unit :=
  print "Extracting model..." ;;
  extractall model_zip extract_dir ;;
  print "Model extracted to vosk_model/".

(** Lines 45-58. *)
Definition install : M unit :=
  mkdir_parents_exist_ok android_assets ;;
  matches <- glob extract_dir "vosk-model-" ;;
  model_dir <- index0 matches ;;
  there <- path_exists dest_model ;;
  (if there then rmtree dest_model else ret tt) ;;
  copytree model_dir dest_model ;;
  print "Model copied to: ../android/app/src/main/assets/vosk/model".

(** Lines 61-62. *)
Definition cleanup : M unit :=
  unlink model_zip ;;
  rmtree extract_dir.

(** Lines 64-65. *)
Definition report : M unit :=
  print "Success! Vosk model ready for offline STT" ;;
  emit (EvRglob dest_model) ;;
  root <- get_fs ;;
  emit (EvSize (match fs_lookup dest_model root with
                | Some n => tree_size n
                | None => 0
                end)).

Definition main (net : network) : M unit :=
  banner ;;
  fetch net ;;
  extract ;;
  install ;;
  cleanup ;;
  report.

End Script.

(* ================================================================== *)
(** * Sample runs *)
(* ================================================================== *)

Module Sample.

(** A stand-in for the zip format: two magic bytes, then nothing; every
    such archive holds the same small model. *)
Definition model_name : string := "vosk-model-small-en-us-0.15".

Definition members : list member :=
  [ MemberDir [model_name];
    MemberFile [model_name; "README"] [x68; x69];
    MemberFile [model_name; "am"; "final.mdl"] [x01; x02; x03] ].

Definition unzip (data : bytes) : option (list member) :=
  match data with
  | x50 :: x4b :: _ => Some members
  | _ => None
  end.

Definition cwd : string := "models".

(** The server answers 200 with the archive in two chunks and a keep-alive
    chunk in between. *)
Definition good : network :=
  Responds (mkResponse 200 (Present (Some 4)) [[x50; x4b]; []; [x05; x06]] false).

(** The server answers 300 (Multiple Choices) and sends the archive all the
    same. *)
Definition multiple_choices : network :=
  Responds (mkResponse 300 (Present (Some 4)) [[x50; x4b]; []; [x05; x06]] false).

Definition not_found : network :=
  Responds (mkResponse 404 (Present (Some 9)) [[x4e; x6f]] false).

(** The server announces 10000 bytes and sends them in chunks of 8192,
    1804 and 4 bytes. *)
Definition last_four_late : network :=
  Responds (mkResponse 200 (Present (Some 10000))
              [repeat x00 (64 * 128)%nat; repeat x00 1804%nat; repeat x00 4%nat] false).

(** A fresh checkout: the invocation directory is there and empty, the
    Android tree is not. *)
Definition fresh : state := mkState (Dir [(cwd, Dir [])]) [].

(** An earlier run left an extraction directory behind, with a file the
    archive does not have. *)
Definition stale : state :=
  mkState
    (Dir [(cwd, Dir [("vosk_model",
                      Dir [(model_name, Dir [("old.bin", File [x07])])])])])
    [].

(** An installed model from an earlier run, and an extraction directory in
    which two entries match the pattern. *)
Definition two_models : state :=
  mkState
    (Dir [(cwd, Dir [("vosk_model",
                      Dir [("notes.txt", File [x00]);
                           ("vosk-model-b", Dir [("b.bin", File [x0b])]);
                           ("vosk-model-a", Dir [("a.bin", File [x0a])])])]);
          ("android", Dir [("app", Dir [("src", Dir [("main", Dir [("assets",
             Dir [("vosk", Dir [("model", Dir [("previous.bin", File [x09])])])])])])])])])
    [].

(** An extraction directory without any entry matching the pattern. *)
Definition no_model : state :=
  mkState
    (Dir [(cwd, Dir [("vosk_model", Dir [("notes.txt", File [x00])])]);
          ("android", Dir [("app", Dir [("src", Dir [("main", Dir [("assets",
             Dir [("vosk", Dir [("model", Dir [("previous.bin", File [x09])])])])])])])])])
    [].

(** A file sits where the model directory is to go: the install step
    raises at its [rmtree]. *)
Definition dest_is_file : state :=
  mkState
    (Dir [(cwd, Dir []);
          ("android", Dir [("app", Dir [("src", Dir [("main", Dir [("assets",
             Dir [("vosk", Dir [("model", File [x09])])])])])])])])
    [].

(** Where a run leaves [fresh], a second run after it, and where a run
    gets with [dest_is_file]. *)
Definition fresh_done : state :=
  Eval vm_compute in snd (main cwd unzip good fresh).

Definition fresh_done_twice : state :=
  Eval vm_compute in snd (main cwd unzip good fresh_done).

Definition dest_is_file_aborted : state :=
  Eval vm_compute in snd (main cwd unzip good dest_is_file).

(** Where the install step leaves [two_models]. *)
Definition two_models_installed : state :=
  Eval vm_compute in snd (install cwd two_models).

(** Where line 46 leaves [fresh] and [no_model]. *)
Definition fresh_with_assets : state :=
  Eval vm_compute in snd (mkdir_parents_exist_ok android_assets fresh).

Definition no_model_with_assets : state :=
  Eval vm_compute in snd (mkdir_parents_exist_ok android_assets no_model).

(** The stream breaks after the first chunk. *)
Definition broken : network :=
  Responds (mkResponse 200 (Present (Some 4)) [[x50; x4b]] true).

(** The header is there and is no number. *)
Definition bad_header : network :=
  Responds (mkResponse 200 (Present None) [[x50; x4b]] false).

(** The server sends bytes that are no archive. *)
Definition not_a_zip : network :=
  Responds (mkResponse 200 Absent [[x3c; x68]] false).

(** An archive from an earlier run and the script itself lie in the
    invocation directory. *)
Definition with_script : state :=
  mkState
    (Dir [(cwd, Dir [("setup_vosk.py", File [x23; x21]);
                     ("vosk-model.zip", File [x00; x00; x00])])])
    [].

(** The first match in the extraction directory is a plain file, and a
    model is installed. *)
Definition file_match : state :=
  mkState
    (Dir [(cwd, Dir [("vosk_model",
                      Dir [("vosk-model-readme.txt", File [x00]);
                           ("vosk-model-a", Dir [("a.bin", File [x0a])])])]);
          ("android", Dir [("app", Dir [("src", Dir [("main", Dir [("assets",
             Dir [("vosk", Dir [("model", Dir [("previous.bin", File [x09])])])])])])])])])
    [].

(** Where the download leaves [fresh]. *)
Definition fresh_downloaded : state :=
  Eval vm_compute in snd (download_file good model_url (model_zip cwd) fresh).

(** [dest_is_file] when the install step begins. *)
Definition dest_is_file_extracted : state :=
  Eval vm_compute in
    snd (bind banner (fun _ => bind (fetch cwd good) (fun _ => extract cwd unzip))
           dest_is_file).

Definition with_script_done : state :=
  Eval vm_compute in snd (main cwd unzip good with_script).

(** A file named [app] lies where the assets directory has to go. *)
Definition app_is_file : state :=
  mkState (Dir [(cwd, Dir []); ("android", Dir [("app", File [x00])])]) [].

Definition with_script_fetched : state :=
  Eval vm_compute in snd (bind banner (fun _ => fetch cwd not_a_zip) with_script).

End Sample.

(* ================================================================== *)
(** * Vocabulary of the properties *)
(* ================================================================== *)

(** [steps R m]: whatever [m] does, normally or by raising, the state it
    leaves is related by [R] to the one it started from. *)
Definition steps (R : state -> state -> Prop) (A : Type) (m : M A) : Prop :=
  forall s r s', m s = (r, s') -> R s s'.

(** What is at [q] is the same before and after. *)
Definition keeps (q : path) (s s' : state) : Prop :=
  fs_lookup q (fs s') = fs_lookup q (fs s).

(** The trace only grows, and by events satisfying [P]. *)
Definition only_emits (P : event -> Prop) (s s' : state) : Prop :=
  exists new, trace s' = trace s ++ new /\ Forall P new.

(** The two calls of the clean-up step. *)
Definition cleanup_call (cwd : string) (ev : event) : Prop :=
  ev = EvUnlink (model_zip cwd) \/ ev = EvRmtree (extract_dir cwd).

(** What line 50 picks, when it picks something:
    [list(Path("vosk_model").glob("vosk-model-*"))[0]]. *)
Definition selected (cwd : string) (root : node) : option path :=
  hd_error (glob_prefix (extract_dir cwd) "vosk-model-" root).

Definition not_cleanup (cwd : string) (ev : event) : Prop := ~ cleanup_call cwd ev.

(** The events of the download loop: writes to the destination and
    progress lines. *)
Definition transfer_event (dest : path) (ev : event) : Prop :=
  match ev with
  | EvWrite p _ => p = dest
  | EvProgress _ => True
  | _ => False
  end.

(** A progress line. *)
Definition progress_line (ev : event) : Prop := exists t, ev = EvProgress t.

(** A file lies on the path [p], at [p] itself or above it. *)
Fixpoint blocked (p : path) (o : option node) : bool :=
  match o with
  | Some (File _) => true
  | None => false
  | Some (Dir es) =>
      match p with
      | [] => false
      | c :: q => blocked q (entry_get c es)
      end
  end.

(** The bytes of a chunk sequence, in order. *)
Definition body (l : list bytes) : bytes := List.concat l.

(* ================================================================== *)
(** * Facts about the file system *)
(* ================================================================== *)

Unset Implicit Arguments.

Lemma entry_get_set_eq (c : string) (v : node) (es : list (string * node)) :
  entry_get c (entry_set c v es) = Some v.
Proof.
  induction es as [|[k w] rest IH]; simpl.
  - now rewrite String.eqb_refl.
  - destruct (String.eqb c k) eqn:E; simpl; rewrite E; auto.
Qed.

Lemma entry_get_set_ne (c d : string) (v : node) (es : list (string * node)) :
  c <> d -> entry_get d (entry_set c v es) = entry_get d es.
Proof.
  intros Hne. induction es as [|[k w] rest IH]; simpl.
  - destruct (String.eqb d c) eqn:E; auto.
    apply String.eqb_eq in E. congruence.
  - destruct (String.eqb c k) eqn:E; simpl.
    + apply String.eqb_eq in E. subst k.
      destruct (String.eqb d c) eqn:E'; auto.
      apply String.eqb_eq in E'. congruence.
    + now rewrite IH.
Qed.

Lemma entry_get_del_eq (c : string) (es : list (string * node)) :
  entry_get c (entry_del c es) = None.
Proof.
  unfold entry_del. induction es as [|[k w] rest IH]; simpl; auto.
  destruct (String.eqb c k) eqn:E; simpl; auto. now rewrite E.
Qed.

Lemma entry_get_del_ne (c d : string) (es : list (string * node)) :
  c <> d -> entry_get d (entry_del c es) = entry_get d es.
Proof.
  intros Hne. unfold entry_del. induction es as [|[k w] rest IH]; simpl; auto.
  destruct (String.eqb c k) eqn:E; simpl.
  - apply String.eqb_eq in E. subst k.
    destruct (String.eqb d c) eqn:E'; auto.
    apply String.eqb_eq in E'. congruence.
  - now rewrite IH.
Qed.

Lemma entry_get_put_eq (c : string) (o : option node) (es : list (string * node)) :
  entry_get c (entry_put c o es) = o.
Proof.
  destruct o; simpl; [apply entry_get_set_eq | apply entry_get_del_eq].
Qed.

Lemma entry_get_put_ne (c d : string) (o : option node) (es : list (string * node)) :
  c <> d -> entry_get d (entry_put c o es) = entry_get d es.
Proof.
  destruct o; simpl; [apply entry_get_set_ne | apply entry_get_del_ne].
Qed.

Lemma lookup_opt_None (p : path) : lookup_opt p None = None.
Proof. destruct p; reflexivity. Qed.

Lemma lookup_opt_app (p q : path) (o : option node) :
  lookup_opt (p ++ q) o = lookup_opt q (lookup_opt p o).
Proof.
  revert o. induction p as [|c p IH]; intros o; simpl; auto.
  destruct o as [[data|es]|]; auto using eq_sym, lookup_opt_None.
Qed.

(** An update below [d] is an update of what is at [d]: nothing outside
    what [d] holds decides it. *)
Lemma alter_opt_inside (parents : bool) (f : option node -> result (option node))
    (d q : path) (o o' : option node) :
  alter_opt parents f (d ++ q) o = Ok o' ->
  alter_opt parents f q (lookup_opt d o) = Ok (lookup_opt d o').
Proof.
  revert o o'. induction d as [|c d IH]; intros o o' H; simpl in *; auto.
  destruct o as [[data|es]|]; try discriminate.
  - destruct (alter_opt parents f (d ++ q) (entry_get c es)) as [r|e] eqn:E;
      try discriminate.
    injection H as <-. simpl. rewrite entry_get_put_eq. now apply IH.
  - destruct parents; try discriminate.
    destruct (alter_opt true f (d ++ q) None) as [r|e] eqn:E; try discriminate.
    injection H as <-. simpl. rewrite entry_get_put_eq.
    apply IH in E. now rewrite lookup_opt_None in E.
Qed.

Lemma alter_opt_at (parents : bool) (f : option node -> result (option node))
    (p : path) (o o' : option node) :
  alter_opt parents f p o = Ok o' ->
  f (lookup_opt p o) = Ok (lookup_opt p o').
Proof.
  intros H. rewrite <- (app_nil_r p) in H.
  now apply alter_opt_inside in H.
Qed.

(** An update at [p] is not seen from a path that diverges from [p]. *)
Lemma alter_opt_frame (parents : bool) (f : option node -> result (option node))
    (p q : path) (o o' : option node) :
  alter_opt parents f p o = Ok o' ->
  diverge p q = true ->
  lookup_opt q o' = lookup_opt q o.
Proof.
  revert q o o'. induction p as [|c p IH]; intros q o o' H Hd; simpl in *.
  - discriminate.
  - destruct q as [|d q]; try discriminate.
    destruct (String.eqb c d) eqn:Ecd.
    + apply String.eqb_eq in Ecd. subst d.
      destruct o as [[data|es]|]; try discriminate.
      * destruct (alter_opt parents f p (entry_get c es)) as [r|e] eqn:E;
          try discriminate.
        injection H as <-. simpl. rewrite entry_get_put_eq. eauto.
      * destruct parents; try discriminate.
        destruct (alter_opt true f p None) as [r|e] eqn:E; try discriminate.
        injection H as <-. simpl. rewrite entry_get_put_eq.
        rewrite (IH _ _ _ E Hd). apply lookup_opt_None.
    + apply String.eqb_neq in Ecd.
      destruct o as [[data|es]|]; try discriminate.
      * destruct (alter_opt parents f p (entry_get c es)) as [r|e] eqn:E;
          try discriminate.
        injection H as <-. simpl. now rewrite entry_get_put_ne.
      * destruct parents; try discriminate.
        destruct (alter_opt true f p None) as [r|e] eqn:E; try discriminate.
        injection H as <-. simpl. rewrite entry_get_put_ne by assumption.
        simpl. apply lookup_opt_None.
Qed.

Lemma fs_alter_Ok (parents : bool) (f : option node -> result (option node))
    (p : path) (root root' : node) :
  fs_alter parents f p root = Ok root' ->
  alter_opt parents f p (Some root) = Ok (Some root').
Proof.
  unfold fs_alter. intros H.
  destruct (alter_opt parents f p (Some root)) as [[r|]|e]; congruence.
Qed.

Lemma fs_alter_at (parents : bool) (f : option node -> result (option node))
    (p : path) (root root' : node) :
  fs_alter parents f p root = Ok root' ->
  f (fs_lookup p root) = Ok (fs_lookup p root').
Proof. intros H. apply fs_alter_Ok in H. now apply alter_opt_at in H. Qed.

Lemma fs_alter_inside (parents : bool) (f : option node -> result (option node))
    (d q : path) (root root' : node) :
  fs_alter parents f (d ++ q) root = Ok root' ->
  alter_opt parents f q (fs_lookup d root) = Ok (fs_lookup d root').
Proof. intros H. apply fs_alter_Ok in H. now apply alter_opt_inside in H. Qed.

Lemma fs_alter_frame (parents : bool) (f : option node -> result (option node))
    (p q : path) (root root' : node) :
  fs_alter parents f p root = Ok root' ->
  diverge p q = true ->
  fs_lookup q root' = fs_lookup q root.
Proof. intros H Hd. apply fs_alter_Ok in H. eapply alter_opt_frame; eauto. Qed.

Lemma fs_lookup_app (p q : path) (root : node) :
  fs_lookup (p ++ q) root = lookup_opt q (fs_lookup p root).
Proof. apply lookup_opt_app. Qed.

Lemma diverge_app_l (p q r : path) :
  diverge p q = true -> diverge (p ++ r) q = true.
Proof.
  revert q. induction p as [|c p IH]; intros [|d q]; simpl; try discriminate.
  destruct (String.eqb c d); auto.
Qed.

Lemma diverge_app_r (p q r : path) :
  diverge p q = true -> diverge p (q ++ r) = true.
Proof.
  revert q. induction p as [|c p IH]; intros [|d q]; simpl; try discriminate.
  destruct (String.eqb c d); auto.
Qed.

Lemma diverge_sym (p q : path) : diverge p q = diverge q p.
Proof.
  revert q. induction p as [|c p IH]; intros [|d q]; simpl; auto.
  rewrite (String.eqb_sym c d). destruct (String.eqb d c); auto.
Qed.

(* ================================================================== *)
(** * Reasoning about runs *)
(* ================================================================== *)

Lemma bind_inv (A B : Type) (m : M A) (k : A -> M B) (s s' : state) (r : result B) :
  bind m k s = (r, s') ->
  (exists a s1, m s = (Ok a, s1) /\ k a s1 = (r, s')) \/
  (exists e, m s = (Raise e, s') /\ r = Raise e).
Proof.
  unfold bind. destruct (m s) as [[a|e] s1]; intros H.
  - left. eauto.
  - right. exists e. now inversion H.
Qed.

Lemma bind_Ok_inv (A B : Type) (m : M A) (k : A -> M B) (s s' : state) (b : B) :
  bind m k s = (Ok b, s') ->
  exists a s1, m s = (Ok a, s1) /\ k a s1 = (Ok b, s').
Proof.
  intros H. apply bind_inv in H. destruct H as [H|[e [_ H]]]; [assumption|discriminate].
Qed.

Lemma bind_Ok (A B : Type) (m : M A) (k : A -> M B) (s s1 : state) (a : A) :
  m s = (Ok a, s1) -> bind m k s = k a s1.
Proof. unfold bind. now intros ->. Qed.

Lemma bind_Raise (A B : Type) (m : M A) (k : A -> M B) (s s1 : state) (e : exn) :
  m s = (Raise e, s1) -> bind m k s = (Raise e, s1).
Proof. unfold bind. now intros ->. Qed.

Lemma syscall_Ok_inv (op : node -> result node) (s s' : state) (u : unit) :
  syscall op s = (Ok u, s') ->
  op (fs s) = Ok (fs s') /\ trace s' = trace s.
Proof.
  unfold syscall. destruct (op (fs s)) as [root|e]; intros H; inversion H.
  now split.
Qed.

Lemma syscall_Ok (op : node -> result node) (s : state) (root : node) :
  op (fs s) = Ok root -> syscall op s = (Ok tt, mkState root (trace s)).
Proof. unfold syscall. now intros ->. Qed.

(** ** Properties every step of a run keeps *)

Section Steps.

Variable R : state -> state -> Prop.
Hypothesis R_refl : forall s, R s s.
Hypothesis R_trans : forall s1 s2 s3, R s1 s2 -> R s2 s3 -> R s1 s3.

Lemma steps_ret (A : Type) (a : A) : steps R (ret a).
Proof. intros s r s' H. inversion H. apply R_refl. Qed.

Lemma steps_raise (A : Type) (e : exn) : steps R (@raise A e).
Proof. intros s r s' H. inversion H. apply R_refl. Qed.

Lemma steps_get_fs : steps R get_fs.
Proof. intros s r s' H. inversion H. apply R_refl. Qed.

Lemma steps_bind (A B : Type) (m : M A) (k : A -> M B) :
  steps R m -> (forall a, steps R (k a)) -> steps R (bind m k).
Proof.
  intros Hm Hk s r s' H. apply bind_inv in H.
  destruct H as [(a & s1 & H1 & H2)|(e & H1 & _)].
  - apply R_trans with s1; [exact (Hm _ _ _ H1) | exact (Hk _ _ _ _ H2)].
  - exact (Hm _ _ _ H1).
Qed.

Lemma steps_emit (ev : event) :
  (forall s, R s (mkState (fs s) (trace s ++ [ev]))) -> steps R (emit ev).
Proof. intros Hev s r s' H. inversion H. apply Hev. Qed.

Lemma steps_syscall (op : node -> result node) :
  (forall s root, op (fs s) = Ok root -> R s (mkState root (trace s))) ->
  steps R (syscall op).
Proof.
  intros Hop s r s'. unfold syscall. destruct (op (fs s)) as [root|e] eqn:E;
    intros H; inversion H; auto.
Qed.

Lemma steps_for_each (A : Type) (f : A -> M unit) (l : list A) :
  (forall x, steps R (f x)) -> steps R (for_each f l).
Proof.
  intros Hf. induction l as [|x l IH]; simpl.
  - apply steps_ret.
  - apply steps_bind; auto.
Qed.

End Steps.

(** Breaks a computation into its calls; what is left are the events it
    emits and the system calls it makes. *)
Create HintDb py discriminated.
#[local] Hint Unfold print open_wb write read_file mkdir_parents_exist_ok glob
  index0 path_exists rmtree unlink copytree requests_get raise_for_status
  header_int download_chunk download_file extract_member extractall banner
  fetch extract install cleanup report main : py.

Ltac step_through :=
  repeat first
    [ progress autounfold with py
    | progress cbv zeta
    | apply steps_ret; [solve [eauto]]
    | apply steps_raise; [solve [eauto]]
    | apply steps_get_fs; [solve [eauto]]
    | apply steps_bind; [solve [eauto] | | intros ?]
    | apply steps_for_each; [solve [eauto] | solve [eauto] | intros ?]
    | match goal with
      | |- steps _ (match ?x with _ => _ end) => destruct x
      end ].

(** ** The two relations used below *)

Lemma keeps_refl (q : path) (s : state) : keeps q s s.
Proof. reflexivity. Qed.

Lemma keeps_trans (q : path) (s1 s2 s3 : state) :
  keeps q s1 s2 -> keeps q s2 s3 -> keeps q s1 s3.
Proof. unfold keeps. congruence. Qed.

Lemma only_emits_refl (P : event -> Prop) (s : state) : only_emits P s s.
Proof. exists []. split; [now rewrite app_nil_r | constructor]. Qed.

Lemma only_emits_trans (P : event -> Prop) (s1 s2 s3 : state) :
  only_emits P s1 s2 -> only_emits P s2 s3 -> only_emits P s1 s3.
Proof.
  intros (n1 & E1 & F1) (n2 & E2 & F2). exists (n1 ++ n2). split.
  - now rewrite E2, E1, app_assoc.
  - apply Forall_app. now split.
Qed.

#[local] Hint Resolve keeps_refl keeps_trans only_emits_refl only_emits_trans : core.

Lemma emit_keeps (q : path) (ev : event) : steps (keeps q) (emit ev).
Proof. apply steps_emit. intros s. reflexivity. Qed.

Lemma alter_keeps (q p : path) (parents : bool) (f : option node -> result (option node)) :
  diverge p q = true -> steps (keeps q) (syscall (fs_alter parents f p)).
Proof.
  intros Hd. apply steps_syscall; [auto|]. intros s root H. unfold keeps. simpl.
  eapply fs_alter_frame; eauto.
Qed.

Lemma emit_only_emits (P : event -> Prop) (ev : event) :
  P ev -> steps (only_emits P) (emit ev).
Proof.
  intros HP. apply steps_emit. intros s. exists [ev]. split; auto.
Qed.

Lemma syscall_only_emits (P : event -> Prop) (op : node -> result node) :
  steps (only_emits P) (syscall op).
Proof.
  apply steps_syscall; [auto|]. intros s root _. exists []. simpl.
  split; [now rewrite app_nil_r | constructor].
Qed.

(** Runs [step_through], then closes the leaves of a [keeps] goal. *)
Ltac keeps_through :=
  step_through;
  try first
    [ apply emit_keeps
    | apply alter_keeps; solve [ assumption | auto using diverge_app_l ] ].

(** ** Where the fixed paths lie *)

Section Paths.

Variable cwd : string.

Lemma zip_off_extract_dir : diverge (model_zip cwd) (extract_dir cwd) = true.
Proof. unfold model_zip, extract_dir. cbn [diverge]. now rewrite String.eqb_refl. Qed.

Lemma extract_dir_off_zip : diverge (extract_dir cwd) (model_zip cwd) = true.
Proof. rewrite diverge_sym. apply zip_off_extract_dir. Qed.

Lemma assets_off_zip : diverge android_assets (model_zip cwd) = true.
Proof.
  unfold android_assets, model_zip. cbn [diverge].
  destruct (String.eqb "android" cwd); reflexivity.
Qed.

Lemma assets_off_extract_dir : diverge android_assets (extract_dir cwd) = true.
Proof.
  unfold android_assets, extract_dir. cbn [diverge].
  destruct (String.eqb "android" cwd); reflexivity.
Qed.

Lemma zip_off_dest : diverge (model_zip cwd) dest_model = true.
Proof.
  unfold dest_model. apply diverge_app_r. rewrite diverge_sym. apply assets_off_zip.
Qed.

Lemma extract_dir_off_dest : diverge (extract_dir cwd) dest_model = true.
Proof.
  unfold dest_model. apply diverge_app_r. rewrite diverge_sym.
  apply assets_off_extract_dir.
Qed.

Lemma dest_off_extract_dir : diverge dest_model (extract_dir cwd) = true.
Proof. rewrite diverge_sym. apply extract_dir_off_dest. Qed.

Lemma dest_off_zip : diverge dest_model (model_zip cwd) = true.
Proof. rewrite diverge_sym. apply zip_off_dest. Qed.

Lemma dest_is_not_extract_dir : dest_model <> extract_dir cwd.
Proof. unfold dest_model, android_assets, extract_dir. simpl. congruence. Qed.

End Paths.

#[local] Hint Resolve zip_off_extract_dir extract_dir_off_zip assets_off_zip
  assets_off_extract_dir zip_off_dest extract_dir_off_dest dest_off_extract_dir
  dest_off_zip diverge_app_l diverge_app_r : core.

(** ** What each step leaves alone *)

Lemma download_loop_keeps (q dest : path) (total : Z) (l : list bytes) (d : Z) :
  diverge dest q = true -> steps (keeps q) (download_loop dest total l d).
Proof.
  intros Hd. revert d. induction l as [|chunk l IH]; intros d; simpl.
  - keeps_through.
  - apply steps_bind; [eauto | | auto]. keeps_through.
Qed.

Lemma download_file_keeps (q dest : path) (net : network) (url : string) :
  diverge dest q = true -> steps (keeps q) (download_file net url dest).
Proof.
  intros Hd. keeps_through. now apply download_loop_keeps.
Qed.

Lemma extract_member_keeps (q dir : path) (m : member) :
  diverge dir q = true -> steps (keeps q) (extract_member dir m).
Proof.
  intros Hd. keeps_through.
Qed.

Section StepFrames.

Variable cwd : string.
Variable unzip : bytes -> option (list member).

Lemma banner_keeps (q : path) : steps (keeps q) banner.
Proof. keeps_through. Qed.

Lemma fetch_keeps (q : path) (net : network) :
  diverge (model_zip cwd) q = true -> steps (keeps q) (fetch cwd net).
Proof.
  intros Hd. keeps_through. now apply download_loop_keeps.
Qed.

Lemma extract_keeps (q : path) :
  diverge (extract_dir cwd) q = true -> steps (keeps q) (extract cwd unzip).
Proof.
  intros Hd. keeps_through.
Qed.

Lemma install_keeps (q : path) :
  diverge android_assets q = true -> steps (keeps q) (install cwd).
Proof.
  intros Hd. keeps_through; apply alter_keeps; unfold dest_model; auto.
Qed.

Lemma cleanup_keeps (q : path) :
  diverge (model_zip cwd) q = true -> diverge (extract_dir cwd) q = true ->
  steps (keeps q) (cleanup cwd).
Proof.
  intros Hz Hx. keeps_through.
Qed.

Lemma report_keeps (q : path) : steps (keeps q) report.
Proof. keeps_through. Qed.

End StepFrames.

(* ================================================================== *)
(** * The fetch step *)
(* ================================================================== *)

(** C2.  When the server answers with an error status (a 4xx or 5xx code,
    the ones on which [raise_for_status] raises), the program dies of
    [HTTPError] right after the GET: the file system is exactly what it
    was (the destination is neither created nor modified, and whatever
    temporary artifacts were there are still there), and the trace ends
    with the GET, so neither the extraction nor the install step ran. *)
Theorem http_error_aborts_before_extraction
    (cwd : string) (unzip : bytes -> option (list member)) (r : response) (s : state) :
  is_error_status (status_code r) = true ->
  main cwd unzip (Responds r) s =
    (Raise HTTPError,
     mkState (fs s)
       (trace s ++
        [EvPrint "Lylyt - Setting up Vosk STT Model";
         EvPrint (String.concat "" (repeat "=" 60));
         EvPrint "Downloading Vosk small English model (40MB)...";
         EvPrint "Downloading Vosk model...";
         EvGet model_url])).
Proof.
  intros Herr.
  unfold main, banner, fetch, download_file, print, requests_get, raise_for_status.
  unfold bind, emit, raise, ret. cbn [fs trace]. rewrite Herr.
  repeat rewrite <- app_assoc. reflexivity.
Qed.

Lemma http_error_aborts_before_extraction_witness :
  main Sample.cwd Sample.unzip Sample.not_found Sample.fresh =
    (Raise HTTPError,
     mkState (fs Sample.fresh)
       (trace Sample.fresh ++
        [EvPrint "Lylyt - Setting up Vosk STT Model";
         EvPrint (String.concat "" (repeat "=" 60));
         EvPrint "Downloading Vosk small English model (40MB)...";
         EvPrint "Downloading Vosk model...";
         EvGet model_url])).
Proof.
  apply (http_error_aborts_before_extraction Sample.cwd Sample.unzip
           (mkResponse 404 (Present (Some 9)) [[x4e; x6f]] false) Sample.fresh).
  reflexivity.
Defined.

Lemma alter_opt_present (parents : bool) (f : option node -> result (option node))
    (p : path) (o : option node) (n n' : node) :
  lookup_opt p o = Some n ->
  f (Some n) = Ok (Some n') ->
  exists r, alter_opt parents f p o = Ok (Some r).
Proof.
  revert o. induction p as [|c p IH]; intros o Hl Hf; simpl in *.
  - subst o. eauto.
  - destruct o as [[data|es]|]; try discriminate.
    destruct (IH _ Hl Hf) as [r ->]. eauto.
Qed.

Lemma fs_alter_present (parents : bool) (f : option node -> result (option node))
    (p : path) (root n n' : node) :
  fs_lookup p root = Some n ->
  f (Some n) = Ok (Some n') ->
  exists root', fs_alter parents f p root = Ok root' /\ fs_lookup p root' = Some n'.
Proof.
  intros Hl Hf. destruct (alter_opt_present parents f p _ _ _ Hl Hf) as [r Hr].
  assert (H : fs_alter parents f p root = Ok r) by (unfold fs_alter; now rewrite Hr).
  exists r. split; auto.
  apply fs_alter_at in H. rewrite Hl, Hf in H. now inversion H.
Qed.

Lemma open_wb_Ok_inv (dest : path) (s s' : state) (u : unit) :
  open_wb dest s = (Ok u, s') ->
  fs_lookup dest (fs s') = Some (File []) /\
  trace s' = trace s ++ [EvOpenWb dest].
Proof.
  unfold open_wb, bind, emit. intros H. apply syscall_Ok_inv in H.
  cbn [fs trace] in H. destruct H as [H Ht]. split; auto.
  apply fs_alter_at in H. unfold do_open_wb in H.
  destruct (fs_lookup dest (fs s)) as [[data|es]|]; congruence.
Qed.

Lemma write_present (dest : path) (chunk data : bytes) (s : state) :
  fs_lookup dest (fs s) = Some (File data) ->
  exists s',
    write dest chunk s = (Ok tt, s') /\
    fs_lookup dest (fs s') = Some (File (data ++ chunk)) /\
    trace s' = trace s ++ [EvWrite dest (List.length chunk)].
Proof.
  intros Hl.
  destruct (fs_alter_present false (do_append chunk) dest (fs s) _ _ Hl eq_refl)
    as (root' & Ha & Hl').
  exists (mkState root' (trace s ++ [EvWrite dest (List.length chunk)])).
  unfold write, bind, emit, syscall. cbn [fs trace]. rewrite Ha. auto.
Qed.

(** A turn of the loop on a file that is open: the counter and the file
    grow by the same chunk. *)
Lemma download_chunk_present (dest : path) (total d : Z) (chunk data : bytes)
    (s : state) :
  fs_lookup dest (fs s) = Some (File data) ->
  exists s',
    download_chunk dest total d chunk s = (Ok (d + Z.of_nat (List.length chunk)), s') /\
    fs_lookup dest (fs s') = Some (File (data ++ chunk)).
Proof.
  intros Hl. destruct chunk as [|b chunk].
  - exists s. simpl. rewrite Z.add_0_r, app_nil_r. auto.
  - destruct (write_present dest (b :: chunk) _ s Hl) as (s1 & Hw & Hl1 & Ht1).
    unfold download_chunk. rewrite (bind_Ok _ _ _ _ _ _ _ Hw).
    destruct (0 <? total); unfold bind, emit, ret; cbn [fs trace]; eauto.
Qed.

Lemma download_loop_present (dest : path) (total : Z) (l : list bytes) :
  forall (d : Z) (data : bytes) (s : state),
    fs_lookup dest (fs s) = Some (File data) ->
    exists s',
      download_loop dest total l d s =
        (Ok (d + Z.of_nat (List.length (body l))), s') /\
      fs_lookup dest (fs s') = Some (File (data ++ body l)).
Proof.
  unfold body. induction l as [|chunk l IH]; intros d data s Hl; simpl.
  - exists s. rewrite Z.add_0_r, app_nil_r. auto.
  - destruct (download_chunk_present dest total d chunk _ s Hl) as (s1 & Hc & Hl1).
    destruct (IH (d + Z.of_nat (List.length chunk)) _ s1 Hl1) as (s2 & Hr & Hl2).
    exists s2. rewrite (bind_Ok _ _ _ _ _ _ _ Hc), Hr.
    rewrite length_app, Nat2Z.inj_add, Z.add_assoc.
    rewrite <- app_assoc in Hl2. auto.
Qed.

Lemma download_loop_app (dest : path) (total : Z) (pre post : list bytes) :
  forall (d : Z) (s : state),
    download_loop dest total (pre ++ post) d s =
    bind (download_loop dest total pre d) (download_loop dest total post) s.
Proof.
  induction pre as [|chunk pre IH]; intros d s; simpl.
  - reflexivity.
  - unfold bind in *.
    destruct (download_chunk dest total d chunk s) as [[d1|e] s1]; auto.
Qed.

(** C10.  Throughout the download loop the counter equals the number of
    bytes written to the destination file so far.  The file opened by
    [open(destination, 'wb')] is empty and the counter 0; after any number
    of turns (the chunks [pre] consumed, [post] still to come) the loop has
    not raised, the file holds exactly the bytes of [pre], the counter is
    the size of the file, and the loop goes on from there.  An empty
    (keep-alive) chunk is skipped: it changes neither the state (no write)
    nor the counter. *)
Theorem counter_equals_bytes_written
    (dest : path) (total : Z) (pre post : list bytes) (s0 s1 : state) :
  open_wb dest s0 = (Ok tt, s1) ->
  exists (d : Z) (s2 : state),
    download_loop dest total pre 0 s1 = (Ok d, s2) /\
    fs_lookup dest (fs s2) = Some (File (body pre)) /\
    d = Z.of_nat (List.length (body pre)) /\
    download_loop dest total (pre ++ post) 0 s1 = download_loop dest total post d s2 /\
    download_chunk dest total d [] s2 = (Ok d, s2).
Proof.
  intros Hopen. apply open_wb_Ok_inv in Hopen. destruct Hopen as [Hl _].
  destruct (download_loop_present dest total pre 0 _ s1 Hl) as (s2 & Hr & Hl2).
  exists (Z.of_nat (List.length (body pre))), s2. simpl in Hr, Hl2.
  repeat split; auto.
  rewrite download_loop_app. apply (bind_Ok _ _ _ _ _ _ _ Hr).
Qed.

Lemma counter_equals_bytes_written_witness :
  exists (d : Z) (s2 : state),
    download_loop (model_zip Sample.cwd) 4 [[x50; x4b]; []] 0
      (mkState (Dir [(Sample.cwd, Dir [("vosk-model.zip", File [])])])
               [EvOpenWb (model_zip Sample.cwd)]) = (Ok d, s2) /\
    fs_lookup (model_zip Sample.cwd) (fs s2) = Some (File (body [[x50; x4b]; []])) /\
    d = Z.of_nat (List.length (body [[x50; x4b]; []])) /\
    download_loop (model_zip Sample.cwd) 4 ([[x50; x4b]; []] ++ [[x05; x06]]) 0
      (mkState (Dir [(Sample.cwd, Dir [("vosk-model.zip", File [])])])
               [EvOpenWb (model_zip Sample.cwd)]) =
      download_loop (model_zip Sample.cwd) 4 [[x05; x06]] d s2 /\
    download_chunk (model_zip Sample.cwd) 4 d [] s2 = (Ok d, s2).
Proof.
  apply (counter_equals_bytes_written (model_zip Sample.cwd) 4
           [[x50; x4b]; []] [[x05; x06]] Sample.fresh _).
  reflexivity.
Defined.

(** ** Progress *)

Lemma write_Ok_inv (dest : path) (chunk : bytes) (s s' : state) (u : unit) :
  write dest chunk s = (Ok u, s') ->
  trace s' = trace s ++ [EvWrite dest (List.length chunk)].
Proof.
  unfold write, bind, emit. intros H. apply syscall_Ok_inv in H.
  now destruct H as [_ H].
Qed.

(** C7, as the spec has it, fails: with 10000 bytes announced, the script
    prints 100.0 % after the second chunk, when 9996 bytes are written and
    four are still to come. *)
Lemma progress_shows_100_before_completion :
  exists s',
    download_file Sample.last_four_late model_url (model_zip Sample.cwd) Sample.fresh
      = (Ok tt, s') /\
    trace s' =
      [EvPrint "Downloading Vosk model...";
       EvGet model_url;
       EvOpenWb (model_zip Sample.cwd);
       EvWrite (model_zip Sample.cwd) 8192; EvProgress 819;
       EvWrite (model_zip Sample.cwd) 1804; EvProgress 1000;
       EvWrite (model_zip Sample.cwd) 4; EvProgress 1000;
       EvPrint "Download complete!"] /\
    format_1f (percent (8192 + 1804) 10000) = 1000 /\
    8192 + 1804 <> 10000.
Proof.
  eexists. split; [vm_compute; reflexivity|].
  split; [reflexivity|]. split; [reflexivity | discriminate].
Qed.

(* ================================================================== *)
(** * The calls, one by one *)
(* ================================================================== *)

Lemma emit_inv (ev : event) (s s' : state) (r : result unit) :
  emit ev s = (r, s') -> r = Ok tt /\ s' = mkState (fs s) (trace s ++ [ev]).
Proof. unfold emit. intros H. inversion H. auto. Qed.

Lemma alter_call_Ok_inv (ev : event) (parents : bool)
    (f : option node -> result (option node)) (p : path) (s s' : state) (u : unit) :
  bind (emit ev) (fun _ => syscall (fs_alter parents f p)) s = (Ok u, s') ->
  fs_alter parents f p (fs s) = Ok (fs s') /\ trace s' = trace s ++ [ev].
Proof.
  unfold bind, emit. intros H. apply syscall_Ok_inv in H. exact H.
Qed.

Lemma mkdir_parents_exist_ok_Ok_inv (p : path) (s s' : state) (u : unit) :
  mkdir_parents_exist_ok p s = (Ok u, s') ->
  fs_alter true do_mkdir_exist_ok p (fs s) = Ok (fs s') /\
  trace s' = trace s ++ [EvMkdir p].
Proof. apply alter_call_Ok_inv. Qed.

Lemma rmtree_Ok_inv (p : path) (s s' : state) (u : unit) :
  rmtree p s = (Ok u, s') ->
  fs_alter false do_rmtree p (fs s) = Ok (fs s') /\
  trace s' = trace s ++ [EvRmtree p].
Proof. apply alter_call_Ok_inv. Qed.

Lemma unlink_Ok_inv (p : path) (s s' : state) (u : unit) :
  unlink p s = (Ok u, s') ->
  fs_alter false do_unlink p (fs s) = Ok (fs s') /\
  trace s' = trace s ++ [EvUnlink p].
Proof. apply alter_call_Ok_inv. Qed.

Lemma glob_inv (dir : path) (prefix : string) (s s' : state) (r : result (list path)) :
  glob dir prefix s = (r, s') ->
  r = Ok (glob_prefix dir prefix (fs s)) /\
  s' = mkState (fs s) (trace s ++ [EvGlob dir prefix]).
Proof. unfold glob, bind, emit, get_fs, ret. intros H. inversion H. auto. Qed.

Lemma index0_Ok_inv (A : Type) (l : list A) (x : A) (s s' : state) :
  index0 l s = (Ok x, s') -> hd_error l = Some x /\ s' = s.
Proof. destruct l; unfold index0, ret, raise; intros H; inversion H; auto. Qed.

Lemma path_exists_inv (p : path) (s s' : state) (r : result bool) :
  path_exists p s = (r, s') ->
  r = Ok (match fs_lookup p (fs s) with Some _ => true | None => false end) /\
  s' = mkState (fs s) (trace s ++ [EvExists p]).
Proof. unfold path_exists, bind, emit, get_fs, ret. intros H. inversion H. auto. Qed.

Lemma copytree_Ok_inv (src dst : path) (s s' : state) (u : unit) :
  copytree src dst s = (Ok u, s') ->
  exists tree,
    fs_lookup src (fs s) = Some (Dir tree) /\
    fs_alter true (do_place tree) dst (fs s) = Ok (fs s') /\
    fs_lookup dst (fs s') = Some (Dir tree) /\
    trace s' = trace s ++ [EvCopytree src dst].
Proof.
  unfold copytree, bind, emit, get_fs. cbn [fs trace]. intros H.
  destruct (fs_lookup src (fs s)) as [[data|tree]|]; try discriminate.
  apply syscall_Ok_inv in H. cbn [fs trace] in H. destruct H as [H Ht].
  exists tree. repeat split; auto.
  apply fs_alter_at in H. unfold do_place in H.
  destruct (fs_lookup dst (fs s)); congruence.
Qed.

Lemma read_file_Ok_inv (p : path) (s s' : state) (data : bytes) :
  read_file p s = (Ok data, s') ->
  fs_lookup p (fs s) = Some (File data) /\ s' = s.
Proof.
  unfold read_file, bind, get_fs, ret, raise.
  destruct (fs_lookup p (fs s)) as [[d|es]|]; intros H; inversion H; auto.
Qed.

(** [mkdir(parents=True, exist_ok=True)] leaves what is below the directory
    as it was. *)
Lemma mkdir_exist_ok_below (p q : path) (c : string) (root root' : node) :
  fs_alter true do_mkdir_exist_ok p root = Ok root' ->
  fs_lookup (p ++ c :: q) root' = fs_lookup (p ++ c :: q) root.
Proof.
  intros H. apply fs_alter_at in H. rewrite !fs_lookup_app.
  unfold do_mkdir_exist_ok in H.
  destruct (fs_lookup p root) as [[data|es]|]; try discriminate;
    injection H as H; rewrite <- H; simpl; auto using lookup_opt_None.
Qed.


(** What [glob] finds in a directory depends on that directory only. *)
Lemma glob_prefix_local (dir : path) (prefix : string) (a b : node) :
  fs_lookup dir a = fs_lookup dir b ->
  glob_prefix dir prefix a = glob_prefix dir prefix b.
Proof. unfold glob_prefix. now intros ->. Qed.

Lemma glob_prefix_inside (dir : path) (prefix : string) (root : node) (p : path) :
  In p (glob_prefix dir prefix root) -> exists name, p = dir ++ [name].
Proof.
  unfold glob_prefix. destruct (fs_lookup dir root) as [[data|es]|]; simpl; try tauto.
  rewrite in_map_iff. intros ([name n] & <- & _). eauto.
Qed.

Lemma selected_inside (cwd : string) (root : node) (src : path) :
  selected cwd root = Some src -> exists name, src = extract_dir cwd ++ [name].
Proof.
  unfold selected. intros H. apply glob_prefix_inside with "vosk-model-" root.
  destruct (glob_prefix (extract_dir cwd) "vosk-model-" root); inversion H.
  now left.
Qed.

Lemma selected_local (cwd : string) (a b : node) :
  fs_lookup (extract_dir cwd) a = fs_lookup (extract_dir cwd) b ->
  selected cwd a = selected cwd b.
Proof. unfold selected. intros H. now rewrite (glob_prefix_local _ _ _ _ H). Qed.

(* ================================================================== *)
(** * The install step *)
(* ================================================================== *)

Section Install.

Variable cwd : string.

(** A successful install, call by call. *)
Lemma install_Ok_inv (s s' : state) :
  install cwd s = (Ok tt, s') ->
  exists (src : path) (tree : list (string * node)),
    selected cwd (fs s) = Some src /\
    fs_lookup src (fs s) = Some (Dir tree) /\
    fs_lookup dest_model (fs s') = Some (Dir tree) /\
    trace s' =
      trace s ++
      [EvMkdir android_assets; EvGlob (extract_dir cwd) "vosk-model-";
       EvExists dest_model] ++
      match fs_lookup dest_model (fs s) with
      | Some _ => [EvRmtree dest_model]
      | None => []
      end ++
      [EvCopytree src dest_model;
       EvPrint "Model copied to: ../android/app/src/main/assets/vosk/model"].
Proof.
  unfold install. intros H.
  apply bind_Ok_inv in H. destruct H as ([] & s1 & Hmk & H).
  apply mkdir_parents_exist_ok_Ok_inv in Hmk. destruct Hmk as [Hmk T1].
  apply bind_Ok_inv in H. destruct H as (matches & s2 & Hgl & H).
  apply glob_inv in Hgl. destruct Hgl as [Hgl ->]. injection Hgl as ->.
  apply bind_Ok_inv in H. destruct H as (src & s3 & Hix & H).
  apply index0_Ok_inv in Hix. destruct Hix as [Hsel ->].
  apply bind_Ok_inv in H. destruct H as (there & s4 & Hex & H).
  apply path_exists_inv in Hex. destruct Hex as [Hex ->]. injection Hex as ->.
  cbn [fs trace] in *.
  apply bind_Ok_inv in H. destruct H as ([] & s5 & Hrm & H).
  apply bind_Ok_inv in H. destruct H as ([] & s6 & Hcp & H).
  apply emit_inv in H. destruct H as [_ ->]. cbn [fs trace].
  apply copytree_Ok_inv in Hcp. destruct Hcp as (tree & Hsrc & _ & Hdst & T6).
  (* what the glob sees is what was there before the mkdir *)
  assert (Hx : fs_lookup (extract_dir cwd) (fs s1) = fs_lookup (extract_dir cwd) (fs s)).
  { eapply fs_alter_frame; eauto. }
  assert (Hsel' : selected cwd (fs s) = Some src).
  { unfold selected. rewrite <- (glob_prefix_local _ _ _ _ Hx). exact Hsel. }
  destruct (selected_inside _ _ _ Hsel') as [name ->].
  assert (Hd : fs_lookup dest_model (fs s1) = fs_lookup dest_model (fs s)).
  { unfold dest_model. now apply mkdir_exist_ok_below. }
  rewrite Hd in Hrm.
  assert (Hsrc1 : fs_lookup (extract_dir cwd ++ [name]) (fs s1) =
                  fs_lookup (extract_dir cwd ++ [name]) (fs s)).
  { eapply fs_alter_frame; eauto. }
  exists (extract_dir cwd ++ [name]), tree.
  split; [exact Hsel'|].
  destruct (fs_lookup dest_model (fs s)) as [old|] eqn:Hold.
  - apply rmtree_Ok_inv in Hrm. cbn [fs trace] in Hrm. destruct Hrm as [Hrm T5].
    assert (Hsrc5 : fs_lookup (extract_dir cwd ++ [name]) (fs s5) =
                    fs_lookup (extract_dir cwd ++ [name]) (fs s1)).
    { eapply fs_alter_frame; eauto. }
    repeat split.
    + congruence.
    + exact Hdst.
    + rewrite T6, T5, T1. now rewrite <- !app_assoc.
  - inversion Hrm; subst s5; clear Hrm. cbn [fs trace] in *.
    repeat split.
    + congruence.
    + exact Hdst.
    + rewrite T6, T1. now rewrite <- !app_assoc.
Qed.

Lemma filter_no_match (A : Type) (f : A -> bool) (l : list A) :
  (forall y, In y l -> f y = false) -> filter f l = [].
Proof.
  intros Hl. induction l as [|y l IH]; simpl; auto.
  rewrite (Hl y) by now left. apply IH. intros z Hz. apply Hl. now right.
Qed.



Lemma syscall_Raise_inv (op : node -> result node) (s s' : state) (e : exn) :
  syscall op s = (Raise e, s') -> s' = s.
Proof.
  unfold syscall. destruct (op (fs s)); intros H; inversion H; reflexivity.
Qed.

Lemma alter_call_Raise_inv (ev : event) (op : node -> result node)
    (s s' : state) (e : exn) :
  bind (emit ev) (fun _ => syscall op) s = (Raise e, s') -> fs s' = fs s.
Proof.
  unfold bind, emit. intros H. apply syscall_Raise_inv in H. now subst s'.
Qed.

Lemma copytree_Raise_inv (src dst : path) (s s' : state) (e : exn) :
  copytree src dst s = (Raise e, s') -> fs s' = fs s.
Proof.
  unfold copytree, bind, emit, get_fs. cbn [fs trace].
  destruct (fs_lookup src (fs s)) as [[data|tree]|]; intros H.
  - inversion H. reflexivity.
  - apply syscall_Raise_inv in H. now subst s'.
  - inversion H. reflexivity.
Qed.

(** An install that raises leaves at the install path the directory that
    was there, or nothing. *)
Lemma install_Raise_inv (s s' : state) (e : exn) (old : list (string * node)) :
  fs_lookup dest_model (fs s) = Some (Dir old) ->
  install cwd s = (Raise e, s') ->
  fs_lookup dest_model (fs s') = Some (Dir old) \/
  fs_lookup dest_model (fs s') = None.
Proof.
  unfold install. intros Hold H.
  apply bind_inv in H. destruct H as [([] & s1 & Hmk & H)|(e1 & Hmk & _)].
  2:{ left. apply alter_call_Raise_inv in Hmk. now rewrite Hmk. }
  apply mkdir_parents_exist_ok_Ok_inv in Hmk. destruct Hmk as [Hmk _].
  assert (Hd : fs_lookup dest_model (fs s1) = Some (Dir old)).
  { rewrite <- Hold. unfold dest_model. now apply mkdir_exist_ok_below. }
  apply bind_inv in H. destruct H as [(matches & s2 & Hgl & H)|(e1 & Hgl & _)].
  2:{ apply glob_inv in Hgl. destruct Hgl as [Hgl _]. discriminate. }
  apply glob_inv in Hgl. destruct Hgl as [_ ->].
  apply bind_inv in H. destruct H as [(src & s3 & Hix & H)|(e1 & Hix & _)].
  2:{ left. destruct matches; unfold index0, raise, ret in Hix; inversion Hix.
      exact Hd. }
  apply index0_Ok_inv in Hix. destruct Hix as [_ ->].
  apply bind_inv in H. destruct H as [(there & s4 & Hex & H)|(e1 & Hex & _)].
  2:{ apply path_exists_inv in Hex. destruct Hex as [Hex _]. discriminate. }
  apply path_exists_inv in Hex. destruct Hex as [Hex ->]. injection Hex as ->.
  cbn [fs trace] in *. rewrite Hd in H.
  apply bind_inv in H. destruct H as [([] & s5 & Hrm & H)|(e1 & Hrm & _)].
  2:{ left. apply alter_call_Raise_inv in Hrm. cbn [fs] in Hrm. now rewrite Hrm. }
  apply rmtree_Ok_inv in Hrm. cbn [fs trace] in Hrm. destruct Hrm as [Hrm _].
  assert (Hd5 : fs_lookup dest_model (fs s5) = None).
  { apply fs_alter_at in Hrm. rewrite Hd in Hrm. simpl in Hrm. congruence. }
  right.
  apply bind_inv in H. destruct H as [([] & s6 & Hcp & H)|(e1 & Hcp & _)].
  - apply emit_inv in H. destruct H as [H _]. discriminate.
  - apply copytree_Raise_inv in Hcp. now rewrite Hcp.
Qed.

(** C4.  When a directory is at the install path, every run of the install
    step either replaces it or does not merge into it.  A run that
    succeeds has removed it ([rmtree], before [copytree], as the trace
    shows) and the destination is then exactly the tree of the selected
    model directory: nothing of the old content is left.  A run that
    raises leaves the old directory as it was or, when it raises after the
    [rmtree], no destination at all. *)
Theorem install_replaces_destination
    (s s' : state) (r : result unit) (old : list (string * node)) :
  fs_lookup dest_model (fs s) = Some (Dir old) ->
  install cwd s = (r, s') ->
  match r with
  | Ok _ =>
      exists (src : path) (tree : list (string * node)),
        selected cwd (fs s) = Some src /\
        fs_lookup src (fs s) = Some (Dir tree) /\
        fs_lookup dest_model (fs s') = Some (Dir tree) /\
        trace s' =
          trace s ++
          [EvMkdir android_assets; EvGlob (extract_dir cwd) "vosk-model-";
           EvExists dest_model; EvRmtree dest_model; EvCopytree src dest_model;
           EvPrint "Model copied to: ../android/app/src/main/assets/vosk/model"]
  | Raise _ =>
      fs_lookup dest_model (fs s') = Some (Dir old) \/
      fs_lookup dest_model (fs s') = None
  end.
Proof.
  intros Hold Hrun. destruct r as [[]|e].
  - apply install_Ok_inv in Hrun.
    destruct Hrun as (src & tree & Hsel & Hsrc & Hdst & Htr).
    rewrite Hold in Htr. exists src, tree. auto.
  - now apply (install_Raise_inv s s' e old).
Qed.

(** C9.  When nothing in the extraction directory matches [vosk-model-*]
    (or there is no such directory), an install that gets past line 46
    dies of [IndexError] at line 50.  By then it has made two calls, the
    [mkdir] of the assets directory and the [glob]: the destination has
    not been looked at, removed or written, and is what it was.  A program
    run that reaches the install step in such a state ends there. *)
Theorem no_match_aborts_before_destination (s s1 : state) :
  (forall es, fs_lookup (extract_dir cwd) (fs s) = Some (Dir es) ->
     forall kv, In kv es -> String.prefix "vosk-model-" (fst kv) = false) ->
  mkdir_parents_exist_ok android_assets s = (Ok tt, s1) ->
  let s2 := mkState (fs s1)
              (trace s ++ [EvMkdir android_assets;
                           EvGlob (extract_dir cwd) "vosk-model-"]) in
  install cwd s = (Raise IndexError, s2) /\
  fs_lookup dest_model (fs s2) = fs_lookup dest_model (fs s) /\
  forall (unzip : bytes -> option (list member)) (net : network) (s0 : state),
    bind banner (fun _ => bind (fetch cwd net) (fun _ => extract cwd unzip)) s0
      = (Ok tt, s) ->
    main cwd unzip net s0 = (Raise IndexError, s2).
Proof.
  intros Hnone Hmk s2.
  assert (Hinst : install cwd s = (Raise IndexError, s2)).
  { unfold install. rewrite (bind_Ok _ _ _ _ _ _ _ Hmk).
    apply mkdir_parents_exist_ok_Ok_inv in Hmk. destruct Hmk as [Hmk T1].
    assert (Hx : fs_lookup (extract_dir cwd) (fs s1) = fs_lookup (extract_dir cwd) (fs s)).
    { eapply fs_alter_frame; eauto. }
    assert (Hglob : glob_prefix (extract_dir cwd) "vosk-model-" (fs s1) = []).
    { unfold glob_prefix. rewrite Hx.
      destruct (fs_lookup (extract_dir cwd) (fs s)) as [[data|es]|]; auto.
      rewrite (filter_no_match _ _ es (Hnone es eq_refl)). reflexivity. }
    unfold glob, index0, bind, emit, get_fs, ret, raise. cbn [fs trace].
    rewrite Hglob. unfold s2. now rewrite T1, <- app_assoc. }
  split; [exact Hinst|]. split.
  - apply mkdir_parents_exist_ok_Ok_inv in Hmk. destruct Hmk as [Hmk _].
    unfold s2, dest_model. cbn [fs]. now apply mkdir_exist_ok_below.
  - intros unzip net s0 Hpre. unfold main.
    unfold bind in Hpre |- *.
    destruct (banner s0) as [[[]|e0] sa]; try discriminate.
    destruct (fetch cwd net sa) as [[[]|e1] sb]; try discriminate.
    destruct (extract cwd unzip sb) as [[[]|e2] sc]; try discriminate.
    injection Hpre as ->. now rewrite Hinst.
Qed.

(** The assets directory can be made unless a file is in the way. *)
Lemma mkdir_exist_ok_unblocked (p : path) (o : option node) :
  blocked p o = false ->
  exists r, alter_opt true do_mkdir_exist_ok p o = Ok (Some r).
Proof.
  revert o. induction p as [|c p IH]; intros o Hb.
  - destruct o as [[data|es]|]; simpl in *; try discriminate; eauto.
  - destruct o as [[data|es]|]; simpl in *; try discriminate.
    + destruct (IH _ Hb) as [r ->]. eauto.
    + destruct (IH None) as [r ->]; [now destruct p|]. eauto.
Qed.

(** C8, as the code has it.  Line 46 makes the assets directory and every
    missing directory above it: from any state in which no file lies on
    that path (in particular from one in which [../android] does not exist
    at all) the call succeeds.  The directory is there afterwards, with
    exactly the entries it had when it existed and empty when it did not;
    every entry below it, the installed model among them, is what it was;
    and so is everything off that path. *)
Theorem parents_are_created (s : state) :
  blocked android_assets (Some (fs s)) = false ->
  exists s' : state,
    mkdir_parents_exist_ok android_assets s = (Ok tt, s') /\
    fs_lookup android_assets (fs s') =
      Some (Dir match fs_lookup android_assets (fs s) with
                | Some (Dir es) => es
                | _ => []
                end) /\
    (forall c q, fs_lookup (android_assets ++ c :: q) (fs s') =
                 fs_lookup (android_assets ++ c :: q) (fs s)) /\
    fs_lookup dest_model (fs s') = fs_lookup dest_model (fs s) /\
    (forall q, diverge android_assets q = true ->
               fs_lookup q (fs s') = fs_lookup q (fs s)).
Proof.
  intros Hb. destruct (mkdir_exist_ok_unblocked _ _ Hb) as [root' Hr].
  assert (Ha : fs_alter true do_mkdir_exist_ok android_assets (fs s) = Ok root').
  { unfold fs_alter. now rewrite Hr. }
  exists (mkState root' (trace s ++ [EvMkdir android_assets])).
  split; [|split; [|split; [|split]]]; cbn [fs].
  - unfold mkdir_parents_exist_ok, bind, emit, syscall. cbn [fs trace].
    now rewrite Ha.
  - pose proof (fs_alter_at _ _ _ _ _ Ha) as Hat. unfold do_mkdir_exist_ok in Hat.
    destruct (fs_lookup android_assets (fs s)) as [[data|es]|];
      try discriminate; now injection Hat as <-.
  - intros c q. now apply mkdir_exist_ok_below.
  - unfold dest_model. now apply mkdir_exist_ok_below.
  - intros q Hq. eapply fs_alter_frame; eauto.
Qed.

End Install.

(* ================================================================== *)
(** * The whole run *)
(* ================================================================== *)

Section Run.

Variable cwd : string.
Variable unzip : bytes -> option (list member).

(** ** Fetch *)

Lemma download_file_Ok_inv (net : network) (url : string) (dest : path) (s s' : state) :
  download_file net url dest s = (Ok tt, s') ->
  exists r, net = Responds r /\ fs_lookup dest (fs s') = Some (File (body (chunks r))).
Proof.
  unfold download_file. intros H.
  apply bind_Ok_inv in H. destruct H as ([] & s1 & _ & H).
  apply bind_Ok_inv in H. destruct H as (r & s2 & Hget & H).
  apply bind_Ok_inv in H. destruct H as ([] & s3 & _ & H).
  apply bind_Ok_inv in H. destruct H as (total & s4 & _ & H).
  apply bind_Ok_inv in H. destruct H as ([] & s5 & Hopen & H).
  apply bind_Ok_inv in H. destruct H as (d & s6 & Hloop & H).
  apply bind_Ok_inv in H. destruct H as ([] & s7 & Hbroken & H).
  apply emit_inv in H. destruct H as [_ ->]. cbn [fs].
  exists r. split.
  - unfold requests_get, bind, emit in Hget.
    destruct net as [|r']; [discriminate|]. unfold ret in Hget. congruence.
  - apply open_wb_Ok_inv in Hopen. destruct Hopen as [Hl _].
    destruct (download_loop_present dest total (chunks r) 0 _ s5 Hl) as (s6' & Hr & Hl6).
    rewrite Hr in Hloop. injection Hloop as _ <-.
    destruct (stream_broken r); [discriminate|].
    unfold ret in Hbroken. injection Hbroken as <-. exact Hl6.
Qed.

Lemma fetch_Ok_inv (net : network) (s s' : state) :
  fetch cwd net s = (Ok tt, s') ->
  exists r,
    net = Responds r /\
    fs_lookup (model_zip cwd) (fs s') = Some (File (body (chunks r))).
Proof.
  unfold fetch. intros H.
  apply bind_Ok_inv in H. destruct H as ([] & s1 & _ & H).
  now apply download_file_Ok_inv in H.
Qed.

(** ** Extract *)

(** A system call below [dir] acts on what [dir] holds: from two states
    that agree there, it leaves two states that agree there. *)
Lemma syscall_below_agree (parents : bool) (f : option node -> result (option node))
    (dir q : path) (a b a' b' : state) :
  fs_lookup dir (fs a) = fs_lookup dir (fs b) ->
  syscall (fs_alter parents f (dir ++ q)) a = (Ok tt, a') ->
  syscall (fs_alter parents f (dir ++ q)) b = (Ok tt, b') ->
  fs_lookup dir (fs a') = fs_lookup dir (fs b').
Proof.
  intros Hab Ha Hb.
  apply syscall_Ok_inv in Ha. destruct Ha as [Ha _].
  apply syscall_Ok_inv in Hb. destruct Hb as [Hb _].
  apply fs_alter_inside in Ha. apply fs_alter_inside in Hb.
  rewrite Hab in Ha. congruence.
Qed.

Lemma extract_member_agree (dir : path) (m : member) (a b a' b' : state) :
  fs_lookup dir (fs a) = fs_lookup dir (fs b) ->
  extract_member dir m a = (Ok tt, a') ->
  extract_member dir m b = (Ok tt, b') ->
  fs_lookup dir (fs a') = fs_lookup dir (fs b').
Proof.
  unfold extract_member. intros Hab Ha Hb.
  apply bind_Ok_inv in Ha. destruct Ha as ([] & a1 & Ha1 & Ha).
  apply bind_Ok_inv in Hb. destruct Hb as ([] & b1 & Hb1 & Hb).
  assert (H1 : fs_lookup dir (fs a1) = fs_lookup dir (fs b1)).
  { destruct (member_name m) as [|c name].
    - unfold ret in Ha1, Hb1. congruence.
    - unfold bind, get_fs in Ha1, Hb1.
      rewrite fs_lookup_app in Ha1, Hb1. rewrite Hab in Ha1.
      destruct (lookup_opt (removelast (c :: name)) (fs_lookup dir (fs b))).
      + unfold ret in Ha1, Hb1. congruence.
      + eapply syscall_below_agree; eauto. }
  destruct m as [name|name data]; cbn [member_name] in *.
  - unfold bind, get_fs in Ha, Hb.
    rewrite fs_lookup_app in Ha, Hb. rewrite H1 in Ha.
    destruct (lookup_opt name (fs_lookup dir (fs b1))) as [[d|es]|];
      try (unfold ret in Ha, Hb; congruence);
      eapply syscall_below_agree; eauto.
  - eapply syscall_below_agree; eauto.
Qed.

Lemma for_each_extract_agree (dir : path) (members : list member) :
  forall a b a' b' : state,
    fs_lookup dir (fs a) = fs_lookup dir (fs b) ->
    for_each (extract_member dir) members a = (Ok tt, a') ->
    for_each (extract_member dir) members b = (Ok tt, b') ->
    fs_lookup dir (fs a') = fs_lookup dir (fs b').
Proof.
  induction members as [|m members IH]; intros a b a' b' Hab Ha Hb; simpl in *.
  - unfold ret in Ha, Hb. congruence.
  - apply bind_Ok_inv in Ha. destruct Ha as ([] & a1 & Ha1 & Ha).
    apply bind_Ok_inv in Hb. destruct Hb as ([] & b1 & Hb1 & Hb).
    eapply IH; [|eassumption|eassumption].
    eapply extract_member_agree; eauto.
Qed.

(** Extracting the same archive into two extraction directories that hold
    the same gives two extraction directories that hold the same. *)
Lemma extract_agree (a b a' b' : state) :
  fs_lookup (model_zip cwd) (fs a) = fs_lookup (model_zip cwd) (fs b) ->
  fs_lookup (extract_dir cwd) (fs a) = fs_lookup (extract_dir cwd) (fs b) ->
  extract cwd unzip a = (Ok tt, a') ->
  extract cwd unzip b = (Ok tt, b') ->
  fs_lookup (extract_dir cwd) (fs a') = fs_lookup (extract_dir cwd) (fs b').
Proof.
  unfold extract, extractall. intros Hz Hx Ha Hb.
  apply bind_Ok_inv in Ha. destruct Ha as ([] & a1 & Ea1 & Ha).
  apply emit_inv in Ea1. destruct Ea1 as [_ ->].
  apply bind_Ok_inv in Ha. destruct Ha as ([] & a2 & Ha & Ea2).
  apply emit_inv in Ea2. destruct Ea2 as [_ ->].
  apply bind_Ok_inv in Ha. destruct Ha as ([] & a3 & Ea3 & Ha).
  apply emit_inv in Ea3. destruct Ea3 as [_ ->].
  apply bind_Ok_inv in Ha. destruct Ha as (da & a4 & Ra & Ha).
  apply read_file_Ok_inv in Ra. destruct Ra as [Ra ->].
  apply bind_Ok_inv in Hb. destruct Hb as ([] & b1 & Eb1 & Hb).
  apply emit_inv in Eb1. destruct Eb1 as [_ ->].
  apply bind_Ok_inv in Hb. destruct Hb as ([] & b2 & Hb & Eb2).
  apply emit_inv in Eb2. destruct Eb2 as [_ ->].
  apply bind_Ok_inv in Hb. destruct Hb as ([] & b3 & Eb3 & Hb).
  apply emit_inv in Eb3. destruct Eb3 as [_ ->].
  apply bind_Ok_inv in Hb. destruct Hb as (db & b4 & Rb & Hb).
  apply read_file_Ok_inv in Rb. destruct Rb as [Rb ->].
  cbn [fs trace] in *.
  assert (da = db) by congruence. subst db.
  destruct (unzip da) as [members|]; [|discriminate].
  eapply for_each_extract_agree; [|eassumption|eassumption]. exact Hx.
Qed.

(** ** Clean up *)

Lemma cleanup_Ok_inv (s s' : state) :
  cleanup cwd s = (Ok tt, s') ->
  fs_lookup (model_zip cwd) (fs s') = None /\
  fs_lookup (extract_dir cwd) (fs s') = None /\
  trace s' = trace s ++ [EvUnlink (model_zip cwd); EvRmtree (extract_dir cwd)].
Proof.
  unfold cleanup. intros H.
  apply bind_Ok_inv in H. destruct H as ([] & s1 & Hun & Hrm).
  apply unlink_Ok_inv in Hun. destruct Hun as [Hun T1].
  apply rmtree_Ok_inv in Hrm. destruct Hrm as [Hrm T2].
  assert (Hz1 : fs_lookup (model_zip cwd) (fs s1) = None).
  { apply fs_alter_at in Hun. unfold do_unlink in Hun.
    destruct (fs_lookup (model_zip cwd) (fs s)) as [[d|es]|]; congruence. }
  repeat split.
  - rewrite <- Hz1. eapply fs_alter_frame; eauto.
  - apply fs_alter_at in Hrm. unfold do_rmtree in Hrm.
    destruct (fs_lookup (extract_dir cwd) (fs s1)) as [[d|es]|]; congruence.
  - rewrite T2, T1. now rewrite <- app_assoc.
Qed.

End Run.

Section Program.

Variable cwd : string.
Variable unzip : bytes -> option (list member).

Lemma banner_fs (s s' : state) (r : result unit) :
  banner s = (r, s') -> r = Ok tt /\ fs s' = fs s.
Proof. unfold banner, print, bind, emit. intros H. inversion H. auto. Qed.

Lemma report_fs (s s' : state) (r : result unit) :
  report s = (r, s') -> r = Ok tt /\ fs s' = fs s.
Proof. unfold report, print, bind, emit, get_fs. intros H. inversion H. auto. Qed.

(** A successful run, step by step: the state [sf] after the fetch, the
    state [sx] after the extraction, and what the later steps make of
    them. *)
Lemma main_Ok_inv (net : network) (s s' : state) :
  main cwd unzip net s = (Ok tt, s') ->
  exists (r : response) (sf sx : state) (src : path) (tree : list (string * node)),
    net = Responds r /\
    bind banner (fun _ => fetch cwd net) s = (Ok tt, sf) /\
    fs_lookup (model_zip cwd) (fs sf) = Some (File (body (chunks r))) /\
    fs_lookup (extract_dir cwd) (fs sf) = fs_lookup (extract_dir cwd) (fs s) /\
    extract cwd unzip sf = (Ok tt, sx) /\
    selected cwd (fs sx) = Some src /\
    fs_lookup src (fs sx) = Some (Dir tree) /\
    fs_lookup dest_model (fs s') = Some (Dir tree) /\
    fs_lookup (model_zip cwd) (fs s') = None /\
    fs_lookup (extract_dir cwd) (fs s') = None.
Proof.
  unfold main. intros H.
  apply bind_Ok_inv in H. destruct H as ([] & s0 & Hb & H).
  apply bind_Ok_inv in H. destruct H as ([] & sf & Hf & H).
  apply bind_Ok_inv in H. destruct H as ([] & sx & Hx & H).
  apply bind_Ok_inv in H. destruct H as ([] & si & Hi & H).
  apply bind_Ok_inv in H. destruct H as ([] & sc & Hc & Hr).
  destruct (fetch_Ok_inv cwd net s0 sf Hf) as (r & -> & Hzip).
  destruct (install_Ok_inv cwd sx si Hi) as (src & tree & Hsel & Hsrc & Hdst & _).
  destruct (cleanup_Ok_inv cwd si sc Hc) as (Hz & Hd & _).
  apply report_fs in Hr. destruct Hr as [_ Hr].
  exists r, sf, sx, src, tree. repeat split; auto.
  - now rewrite (bind_Ok _ _ _ _ _ _ _ Hb).
  - apply banner_fs in Hb. destruct Hb as [_ Hb]. rewrite <- Hb.
    apply (fetch_keeps cwd (extract_dir cwd) (Responds r)
             (zip_off_extract_dir cwd) _ _ _ Hf).
  - rewrite Hr. rewrite <- Hdst.
    apply (cleanup_keeps cwd dest_model (zip_off_dest cwd) (extract_dir_off_dest cwd)
             _ _ _ Hc).
  - now rewrite Hr.
  - now rewrite Hr.
Qed.

(** C1.  A run in which every step succeeds leaves, at the install path, a
    directory with exactly the tree of the model directory selected in the
    extraction directory (as the extraction left it), and leaves neither
    the archive [vosk-model.zip] nor the extraction directory
    [vosk_model]. *)
Theorem successful_run_installs_and_cleans (net : network) (s s' : state) :
  main cwd unzip net s = (Ok tt, s') ->
  exists (sx : state) (src : path) (tree : list (string * node)),
    bind banner (fun _ => bind (fetch cwd net) (fun _ => extract cwd unzip)) s
      = (Ok tt, sx) /\
    selected cwd (fs sx) = Some src /\
    fs_lookup src (fs sx) = Some (Dir tree) /\
    fs_lookup dest_model (fs s') = Some (Dir tree) /\
    fs_lookup (model_zip cwd) (fs s') = None /\
    fs_lookup (extract_dir cwd) (fs s') = None.
Proof.
  intros H. apply main_Ok_inv in H.
  destruct H as (r & sf & sx & src & tree & _ & Hf & _ & _ & Hx & H).
  exists sx, src, tree. split; [|exact H].
  unfold bind in Hf |- *.
  destruct (banner s) as [[[]|e] s0]; try discriminate.
  now rewrite Hf.
Qed.

(** C3, as the code has it.  When the extraction directory is not there
    before the first run, a second run on the same answer of the server
    leaves the destination as the first run left it. *)
Theorem second_run_same_destination (net : network) (s s1 s2 : state) :
  fs_lookup (extract_dir cwd) (fs s) = None ->
  main cwd unzip net s = (Ok tt, s1) ->
  main cwd unzip net s1 = (Ok tt, s2) ->
  fs_lookup dest_model (fs s2) = fs_lookup dest_model (fs s1).
Proof.
  intros Hclean H1 H2.
  apply main_Ok_inv in H1.
  destruct H1 as (r & sf & sx & src & tree & -> & _ & Hz & Hd & Hx & Hsel & Hsrc
                  & Hdst & _ & Hgone).
  apply main_Ok_inv in H2.
  destruct H2 as (r' & sf' & sx' & src' & tree' & Hr & _ & Hz' & Hd' & Hx' & Hsel'
                  & Hsrc' & Hdst' & _).
  injection Hr as <-.
  assert (Hagree : fs_lookup (extract_dir cwd) (fs sx) =
                   fs_lookup (extract_dir cwd) (fs sx')).
  { apply (extract_agree cwd unzip sf sf' sx sx'); congruence. }
  rewrite (selected_local cwd _ _ Hagree) in Hsel.
  assert (src' = src) by congruence. subst src'.
  destruct (selected_inside _ _ _ Hsel) as [name ->].
  rewrite fs_lookup_app in Hsrc, Hsrc'. rewrite Hagree in Hsrc.
  congruence.
Qed.

(** ** Runs that abort *)

Lemma emit_not_cleanup (ev : event) :
  not_cleanup cwd ev -> steps (only_emits (not_cleanup cwd)) (emit ev).
Proof. apply emit_only_emits. Qed.

(** Runs [step_through], then closes the leaves of a goal about the events
    of the steps before the clean-up. *)
Ltac quiet_through :=
  step_through;
  try first
    [ apply syscall_only_emits
    | apply emit_not_cleanup; unfold not_cleanup, cleanup_call;
      intros [E|E]; solve [ discriminate E
                          | injection E as E; exact (dest_is_not_extract_dir cwd E) ] ].

Lemma download_loop_quiet (dest : path) (total : Z) (l : list bytes) (d : Z) :
  steps (only_emits (not_cleanup cwd)) (download_loop dest total l d).
Proof.
  revert d. induction l as [|chunk l IH]; intros d; simpl.
  - quiet_through.
  - apply steps_bind; [eauto | | auto]. quiet_through.
Qed.

Lemma before_cleanup_quiet (net : network) :
  steps (only_emits (not_cleanup cwd))
    (bind banner (fun _ => bind (fetch cwd net) (fun _ =>
       bind (extract cwd unzip) (fun _ => install cwd)))).
Proof. quiet_through. apply download_loop_quiet. Qed.

(** C6.  The clean-up runs only after a successful install.  When the
    banner, fetch, extract and install steps end in an exception, the
    program ends with that exception in the very state the failing step
    left; no call of the clean-up step ([unlink] of the archive, [rmtree]
    of the extraction directory) has been made; and the temporary artifacts
    made so far are still there: the downloaded archive when the fetch had
    succeeded, the extraction directory as the extraction left it when the
    extraction had succeeded. *)
Theorem no_cleanup_after_abort (net : network) (s s' : state) (e : exn) :
  bind banner (fun _ => bind (fetch cwd net) (fun _ =>
    bind (extract cwd unzip) (fun _ => install cwd))) s = (Raise e, s') ->
  main cwd unzip net s = (Raise e, s') /\
  (exists new, trace s' = trace s ++ new /\ Forall (not_cleanup cwd) new) /\
  (forall sf,
     bind banner (fun _ => fetch cwd net) s = (Ok tt, sf) ->
     exists r, net = Responds r /\
               fs_lookup (model_zip cwd) (fs s') = Some (File (body (chunks r)))) /\
  (forall sx,
     bind banner (fun _ => bind (fetch cwd net) (fun _ => extract cwd unzip)) s
       = (Ok tt, sx) ->
     fs_lookup (extract_dir cwd) (fs s') = fs_lookup (extract_dir cwd) (fs sx)).
Proof.
  intros H. split; [|split; [|split]].
  - unfold main. unfold bind in H |- *.
    destruct (banner s) as [[[]|e0] s0]; [|exact H].
    destruct (fetch cwd net s0) as [[[]|e1] sf]; [|exact H].
    destruct (extract cwd unzip sf) as [[[]|e2] sx]; [|exact H].
    destruct (install cwd sx) as [[[]|e3] si]; [discriminate|exact H].
  - exact (before_cleanup_quiet net _ _ _ H).
  - intros sf Hf.
    assert (Hrest : bind (extract cwd unzip) (fun _ => install cwd) sf = (Raise e, s')).
    { unfold bind in H, Hf |- *.
      destruct (banner s) as [[[]|e0] s0]; [|discriminate].
      rewrite Hf in H. exact H. }
    assert (Hfetch : exists s0, fetch cwd net s0 = (Ok tt, sf)).
    { unfold bind in Hf. destruct (banner s) as [[[]|e0] s0]; [eauto|discriminate]. }
    destruct Hfetch as [s0 Hfetch].
    destruct (fetch_Ok_inv cwd net s0 sf Hfetch) as (r & Hnet & Hzip).
    exists r. split; [exact Hnet|]. rewrite <- Hzip.
    assert (Hk : steps (keeps (model_zip cwd))
                   (bind (extract cwd unzip) (fun _ => install cwd))).
    { apply steps_bind; [eauto | | intros _].
      - apply extract_keeps. apply extract_dir_off_zip.
      - apply install_keeps. apply assets_off_zip. }
    exact (Hk _ _ _ Hrest).
  - intros sx Hx.
    assert (Hrest : install cwd sx = (Raise e, s')).
    { unfold bind in H, Hx.
      destruct (banner s) as [[[]|e0] s0]; [|discriminate].
      destruct (fetch cwd net s0) as [[[]|e1] sf]; [|discriminate].
      rewrite Hx in H. exact H. }
    exact (install_keeps cwd (extract_dir cwd) (assets_off_extract_dir cwd) _ _ _ Hrest).
Qed.

End Program.

(* ================================================================== *)
(** * The theorems on the sample runs *)
(* ================================================================== *)

Lemma successful_run_installs_and_cleans_witness :
  exists (sx : state) (src : path) (tree : list (string * node)),
    bind banner (fun _ => bind (fetch Sample.cwd Sample.good)
                            (fun _ => extract Sample.cwd Sample.unzip)) Sample.fresh
      = (Ok tt, sx) /\
    selected Sample.cwd (fs sx) = Some src /\
    fs_lookup src (fs sx) = Some (Dir tree) /\
    fs_lookup dest_model (fs Sample.fresh_done) = Some (Dir tree) /\
    fs_lookup (model_zip Sample.cwd) (fs Sample.fresh_done) = None /\
    fs_lookup (extract_dir Sample.cwd) (fs Sample.fresh_done) = None.
Proof.
  apply (successful_run_installs_and_cleans Sample.cwd Sample.unzip Sample.good
           Sample.fresh Sample.fresh_done).
  reflexivity.
Defined.

Lemma second_run_same_destination_witness :
  fs_lookup dest_model (fs Sample.fresh_done_twice) =
  fs_lookup dest_model (fs Sample.fresh_done).
Proof.
  apply (second_run_same_destination Sample.cwd Sample.unzip Sample.good
           Sample.fresh Sample.fresh_done Sample.fresh_done_twice);
    reflexivity.
Defined.

(** C3, as the spec has it, fails: started where an earlier run left an
    extraction directory with a file the archive does not have, the first
    run installs that file along with the model, and the second run, which
    starts from a clean extraction directory, does not. *)
Lemma second_run_differs_after_stale_extraction :
  exists s1 s2,
    main Sample.cwd Sample.unzip Sample.good Sample.stale = (Ok tt, s1) /\
    main Sample.cwd Sample.unzip Sample.good s1 = (Ok tt, s2) /\
    fs_lookup dest_model (fs s1) =
      Some (Dir [("old.bin", File [x07]);
                 ("README", File [x68; x69]);
                 ("am", Dir [("final.mdl", File [x01; x02; x03])])]) /\
    fs_lookup dest_model (fs s2) =
      Some (Dir [("README", File [x68; x69]);
                 ("am", Dir [("final.mdl", File [x01; x02; x03])])]) /\
    fs_lookup dest_model (fs s2) <> fs_lookup dest_model (fs s1).
Proof.
  eexists. eexists.
  split; [vm_compute; reflexivity|].
  split; [vm_compute; reflexivity|].
  split; [reflexivity|]. split; [reflexivity|].
  vm_compute. discriminate.
Qed.

Lemma install_replaces_destination_witness :
  exists (src : path) (tree : list (string * node)),
    selected Sample.cwd (fs Sample.two_models) = Some src /\
    fs_lookup src (fs Sample.two_models) = Some (Dir tree) /\
    fs_lookup dest_model (fs Sample.two_models_installed) = Some (Dir tree) /\
    trace Sample.two_models_installed =
      trace Sample.two_models ++
      [EvMkdir android_assets; EvGlob (extract_dir Sample.cwd) "vosk-model-";
       EvExists dest_model; EvRmtree dest_model; EvCopytree src dest_model;
       EvPrint "Model copied to: ../android/app/src/main/assets/vosk/model"].
Proof.
  apply (install_replaces_destination Sample.cwd Sample.two_models
           Sample.two_models_installed (Ok tt) [("previous.bin", File [x09])]);
    reflexivity.
Defined.

Lemma no_cleanup_after_abort_witness :
  main Sample.cwd Sample.unzip Sample.good Sample.dest_is_file
    = (Raise NotADirectoryError, Sample.dest_is_file_aborted) /\
  (exists new,
     trace Sample.dest_is_file_aborted = trace Sample.dest_is_file ++ new /\
     Forall (not_cleanup Sample.cwd) new) /\
  (forall sf,
     bind banner (fun _ => fetch Sample.cwd Sample.good) Sample.dest_is_file
       = (Ok tt, sf) ->
     exists r, Sample.good = Responds r /\
               fs_lookup (model_zip Sample.cwd) (fs Sample.dest_is_file_aborted)
                 = Some (File (body (chunks r)))) /\
  (forall sx,
     bind banner (fun _ => bind (fetch Sample.cwd Sample.good)
                             (fun _ => extract Sample.cwd Sample.unzip))
       Sample.dest_is_file = (Ok tt, sx) ->
     fs_lookup (extract_dir Sample.cwd) (fs Sample.dest_is_file_aborted)
       = fs_lookup (extract_dir Sample.cwd) (fs sx)).
Proof.
  apply (no_cleanup_after_abort Sample.cwd Sample.unzip Sample.good
           Sample.dest_is_file Sample.dest_is_file_aborted NotADirectoryError).
  reflexivity.
Defined.

Lemma parents_are_created_witness :
  exists s' : state,
    mkdir_parents_exist_ok android_assets Sample.two_models = (Ok tt, s') /\
    fs_lookup android_assets (fs s') =
      Some (Dir match fs_lookup android_assets (fs Sample.two_models) with
                | Some (Dir es) => es
                | _ => []
                end) /\
    (forall c q, fs_lookup (android_assets ++ c :: q) (fs s') =
                 fs_lookup (android_assets ++ c :: q) (fs Sample.two_models)) /\
    fs_lookup dest_model (fs s') = fs_lookup dest_model (fs Sample.two_models) /\
    (forall q, diverge android_assets q = true ->
               fs_lookup q (fs s') = fs_lookup q (fs Sample.two_models)).
Proof.
  apply (parents_are_created Sample.two_models). reflexivity.
Defined.

(** C8, as the spec has it, fails: in a fresh checkout [../android] does
    not exist, and the run succeeds all the same, having made
    [../android/app/src/main/assets/vosk] itself. *)
Lemma run_succeeds_without_android_tree :
  fs_lookup ["android"] (fs Sample.fresh) = None /\
  main Sample.cwd Sample.unzip Sample.good Sample.fresh = (Ok tt, Sample.fresh_done) /\
  fs_lookup dest_model (fs Sample.fresh_done) =
    Some (Dir [("README", File [x68; x69]);
               ("am", Dir [("final.mdl", File [x01; x02; x03])])]).
Proof. repeat split. Qed.

Lemma no_match_aborts_before_destination_witness :
  let s2 := mkState (fs Sample.no_model_with_assets)
              (trace Sample.no_model ++
               [EvMkdir android_assets;
                EvGlob (extract_dir Sample.cwd) "vosk-model-"]) in
  install Sample.cwd Sample.no_model = (Raise IndexError, s2) /\
  fs_lookup dest_model (fs s2) = fs_lookup dest_model (fs Sample.no_model) /\
  forall (unzip : bytes -> option (list member)) (net : network) (s0 : state),
    bind banner (fun _ => bind (fetch Sample.cwd net)
                            (fun _ => extract Sample.cwd unzip)) s0
      = (Ok tt, Sample.no_model) ->
    main Sample.cwd unzip net s0 = (Raise IndexError, s2).
Proof.
  apply (no_match_aborts_before_destination Sample.cwd Sample.no_model
           Sample.no_model_with_assets).
  - intros es H. cbv in H. injection H as <-.
    intros kv [<-|[]]. reflexivity.
  - reflexivity.
Defined.

(* ================================================================== *)
(** * Further properties of the script *)
(* ================================================================== *)

(** ** More on path updates *)

(** An update at a place that is there goes through when [f] accepts what
    is there; above the root it never yields nothing. *)
Lemma alter_opt_reaches (parents : bool) (f : option node -> result (option node))
    (p : path) (o : option node) (n : node) (r : option node) :
  lookup_opt p o = Some n ->
  f (Some n) = Ok r ->
  exists o', alter_opt parents f p o = Ok o' /\ (p <> [] -> o' <> None).
Proof.
  revert o. induction p as [|c p IH]; intros o Hl Hf; simpl in *.
  - subst o. exists r. split; [assumption|congruence].
  - destruct o as [[data|es]|]; try discriminate.
    destruct (IH _ Hl Hf) as (o' & -> & _).
    eexists. split; [reflexivity|discriminate].
Qed.

(** ... and raises what [f] raises when [f] refuses it. *)
Lemma alter_opt_refused (parents : bool) (f : option node -> result (option node))
    (p : path) (o : option node) (n : node) (e : exn) :
  lookup_opt p o = Some n ->
  f (Some n) = Raise e ->
  alter_opt parents f p o = Raise e.
Proof.
  revert o. induction p as [|c p IH]; intros o Hl Hf; simpl in *.
  - now subst o.
  - destruct o as [[data|es]|]; try discriminate.
    now rewrite (IH _ Hl Hf).
Qed.

(** An update of an entry of a directory that is there. *)
Lemma alter_opt_in_dir (parents : bool) (f : option node -> result (option node))
    (p : path) (c : string) (o : option node) (es : list (string * node))
    (r : option node) :
  lookup_opt p o = Some (Dir es) ->
  f (entry_get c es) = Ok r ->
  exists n', alter_opt parents f (p ++ [c]) o = Ok (Some n').
Proof.
  revert o. induction p as [|d p IH]; intros o Hl Hf; simpl in *.
  - subst o. rewrite Hf. eauto.
  - destruct o as [[data|es']|]; try discriminate.
    destruct (IH _ Hl Hf) as (n' & ->). eauto.
Qed.

(** What an update can die of: the walk, or [f]. *)
Lemma alter_opt_Raise_inv (parents : bool) (f : option node -> result (option node))
    (p : path) (o : option node) (e : exn) :
  alter_opt parents f p o = Raise e ->
  e = NotADirectoryError \/ e = FileNotFoundError \/ exists x, f x = Raise e.
Proof.
  revert o. induction p as [|c p IH]; intros o H; simpl in *.
  - eauto.
  - destruct o as [[data|es]|].
    + injection H as <-. auto.
    + destruct (alter_opt parents f p (entry_get c es)) eqn:E; try discriminate.
      injection H as <-. eauto.
    + destruct parents.
      * destruct (alter_opt true f p None) eqn:E; try discriminate.
        injection H as <-. eauto.
      * injection H as <-. auto.
Qed.

Lemma fs_alter_reaches (parents : bool) (f : option node -> result (option node))
    (p : path) (root n : node) (r : option node) :
  p <> [] ->
  fs_lookup p root = Some n ->
  f (Some n) = Ok r ->
  exists root', fs_alter parents f p root = Ok root' /\ fs_lookup p root' = r.
Proof.
  intros Hp Hl Hf.
  destruct (alter_opt_reaches parents f p _ _ _ Hl Hf) as (o' & Ha & Hne).
  destruct o' as [root'|]; [|now destruct (Hne Hp)].
  assert (H : fs_alter parents f p root = Ok root') by (unfold fs_alter; now rewrite Ha).
  exists root'. split; [assumption|].
  apply fs_alter_at in H. rewrite Hl, Hf in H. now injection H.
Qed.

Lemma fs_alter_refused (parents : bool) (f : option node -> result (option node))
    (p : path) (root n : node) (e : exn) :
  fs_lookup p root = Some n ->
  f (Some n) = Raise e ->
  fs_alter parents f p root = Raise e.
Proof.
  intros Hl Hf. unfold fs_alter. now rewrite (alter_opt_refused parents f p _ _ _ Hl Hf).
Qed.

Lemma fs_alter_in_dir (parents : bool) (f : option node -> result (option node))
    (p : path) (c : string) (root : node) (es : list (string * node))
    (r : option node) :
  fs_lookup p root = Some (Dir es) ->
  f (entry_get c es) = Ok r ->
  exists root', fs_alter parents f (p ++ [c]) root = Ok root'.
Proof.
  intros Hl Hf.
  destruct (alter_opt_in_dir parents f p c _ _ _ Hl Hf) as (n' & Ha).
  exists n'. unfold fs_alter. now rewrite Ha.
Qed.

Lemma fs_alter_Raise_inv (parents : bool) (f : option node -> result (option node))
    (p : path) (root : node) (e : exn) :
  fs_alter parents f p root = Raise e ->
  e = NotADirectoryError \/ e = FileNotFoundError \/ e = PermissionError \/
  exists x, f x = Raise e.
Proof.
  unfold fs_alter. intros H.
  destruct (alter_opt parents f p (Some root)) as [[root'|]|e'] eqn:E; try discriminate.
  - injection H as <-. auto.
  - injection H as <-.
    destruct (alter_opt_Raise_inv _ _ _ _ _ E) as [H|[H|H]]; auto.
Qed.

(** ** [download_file], lines 9-25 *)

(** X1.  Everything that can go wrong before [open(destination, 'wb')]
    leaves the file system as it was: when the server cannot be reached
    ([ConnectionError]), answers with an error status ([HTTPError]) or sends
    a [content-length] that is no number ([ValueError]), [download_file]
    raises after the GET without having opened the destination, so an
    archive from an earlier run is neither truncated nor removed. *)
Theorem download_fails_before_open
    (net : network) (url : string) (dest : path) (s : state) :
  (net = Unreachable \/
   exists r, net = Responds r /\
             (is_error_status (status_code r) = true \/
              content_length r = Present None)) ->
  download_file net url dest s =
    (Raise match net with
           | Unreachable => ConnectionError
           | Responds r =>
               if is_error_status (status_code r) then HTTPError else ValueError
           end,
     mkState (fs s) (trace s ++ [EvPrint "Downloading Vosk model..."; EvGet url])).
Proof.
  intros H.
  unfold download_file, print, requests_get, raise_for_status, header_int.
  unfold bind, emit, raise, ret. cbn [fs trace]. rewrite <- app_assoc. simpl.
  destruct H as [->|(r & -> & [H|H])].
  - reflexivity.
  - now rewrite H.
  - rewrite H. now destruct (is_error_status (status_code r)).
Qed.

Lemma download_fails_before_open_witness :
  download_file Sample.bad_header model_url (model_zip Sample.cwd) Sample.with_script =
    (Raise ValueError,
     mkState (fs Sample.with_script)
       (trace Sample.with_script ++
        [EvPrint "Downloading Vosk model..."; EvGet model_url])).
Proof.
  apply (download_fails_before_open Sample.bad_header model_url
           (model_zip Sample.cwd) Sample.with_script).
  right. eexists. split; [reflexivity|]. right. reflexivity.
Defined.

Lemma download_loop_transfers (dest : path) (total : Z) (l : list bytes) (d : Z) :
  steps (only_emits (transfer_event dest)) (download_loop dest total l d).
Proof.
  revert d. induction l as [|chunk l IH]; intros d; simpl.
  - step_through.
  - apply steps_bind; [eauto | | auto].
    step_through;
      first [ apply syscall_only_emits | apply emit_only_emits; simpl; auto ].
Qed.

(** The download, once the answer is accepted and the destination can be
    opened: the loop runs to its end and the file holds the chunks; what
    follows depends on the stream only. *)
Lemma download_file_opened
    (r : response) (url : string) (parent : path) (name : string) (s : state)
    (es : list (string * node)) :
  is_error_status (status_code r) = false ->
  content_length r <> Present None ->
  fs_lookup parent (fs s) = Some (Dir es) ->
  (forall sub, entry_get name es <> Some (Dir sub)) ->
  exists s6 new,
    fs_lookup (parent ++ [name]) (fs s6) = Some (File (body (chunks r))) /\
    trace s6 =
      trace s ++ [EvPrint "Downloading Vosk model..."; EvGet url;
                  EvOpenWb (parent ++ [name])] ++ new /\
    Forall (transfer_event (parent ++ [name])) new /\
    download_file (Responds r) url (parent ++ [name]) s =
      if stream_broken r
      then (Raise ChunkedEncodingError, s6)
      else (Ok tt, mkState (fs s6) (trace s6 ++ [EvPrint "Download complete!"])).
Proof.
  intros Hst Hcl Hparent Hname.
  pose (s2 := mkState (fs s) (trace s ++ [EvPrint "Downloading Vosk model..."; EvGet url])).
  assert (Htotal : exists total, header_int (content_length r) s2 = (Ok total, s2)).
  { destruct (content_length r) as [|[n|]]; simpl; unfold ret; eauto. congruence. }
  destruct Htotal as [total Htotal].
  assert (Hopen : exists s5, open_wb (parent ++ [name]) s2 = (Ok tt, s5)).
  { assert (Hf : do_open_wb (entry_get name es) = Ok (Some (File []))).
    { unfold do_open_wb. destruct (entry_get name es) as [[d|sub]|] eqn:E; auto.
      now destruct (Hname sub). }
    destruct (fs_alter_in_dir false do_open_wb parent name (fs s) es _ Hparent Hf)
      as [root' Ha].
    exists (mkState root' (trace s2 ++ [EvOpenWb (parent ++ [name])])).
    unfold open_wb, bind, emit, syscall, s2. cbn [fs trace].
    now rewrite Ha. }
  destruct Hopen as [s5 Hopen].
  destruct (open_wb_Ok_inv _ _ _ _ Hopen) as [Hl5 T5].
  destruct (download_loop_present (parent ++ [name]) total (chunks r) 0 _ s5 Hl5)
    as (s6 & Hloop & Hl6).
  destruct (download_loop_transfers (parent ++ [name]) total (chunks r) 0 _ _ _ Hloop)
    as (new & T6 & Hnew).
  exists s6, new. split; [exact Hl6|]. split.
  { rewrite T6, T5. unfold s2. cbn [trace]. now rewrite <- !app_assoc. }
  split; [exact Hnew|].
  unfold download_file.
  assert (H1 : print "Downloading Vosk model..." s =
               (Ok tt, mkState (fs s) (trace s ++ [EvPrint "Downloading Vosk model..."])))
    by reflexivity.
  rewrite (bind_Ok _ _ _ _ _ _ _ H1).
  assert (H2 : requests_get (Responds r) url
                 (mkState (fs s) (trace s ++ [EvPrint "Downloading Vosk model..."]))
               = (Ok r, s2)).
  { unfold requests_get, bind, emit, ret, s2. cbn [fs trace]. now rewrite <- app_assoc. }
  rewrite (bind_Ok _ _ _ _ _ _ _ H2).
  assert (H3 : raise_for_status r s2 = (Ok tt, s2)).
  { unfold raise_for_status. now rewrite Hst. }
  rewrite (bind_Ok _ _ _ _ _ _ _ H3).
  rewrite (bind_Ok _ _ _ _ _ _ _ Htotal).
  rewrite (bind_Ok _ _ _ _ _ _ _ Hopen).
  rewrite (bind_Ok _ _ _ _ _ _ _ Hloop).
  destruct (stream_broken r); reflexivity.
Qed.

(** X2.  When the body stream breaks in the middle of the transfer,
    [download_file] raises from inside the [with] block: the destination
    file is left with exactly the bytes of the chunks received (a truncated
    archive stays on disk), and after the [open] the trace holds writes and
    progress lines only: "Download complete!" is not printed. *)
Theorem broken_stream_leaves_partial_file
    (r : response) (url : string) (parent : path) (name : string) (s : state)
    (es : list (string * node)) :
  is_error_status (status_code r) = false ->
  content_length r <> Present None ->
  stream_broken r = true ->
  fs_lookup parent (fs s) = Some (Dir es) ->
  (forall sub, entry_get name es <> Some (Dir sub)) ->
  exists s' new,
    download_file (Responds r) url (parent ++ [name]) s
      = (Raise ChunkedEncodingError, s') /\
    fs_lookup (parent ++ [name]) (fs s') = Some (File (body (chunks r))) /\
    trace s' =
      trace s ++ [EvPrint "Downloading Vosk model..."; EvGet url;
                  EvOpenWb (parent ++ [name])] ++ new /\
    Forall (transfer_event (parent ++ [name])) new.
Proof.
  intros Hst Hcl Hbr Hparent Hname.
  destruct (download_file_opened r url parent name s es Hst Hcl Hparent Hname)
    as (s6 & new & Hl6 & T6 & Hnew & Hrun).
  rewrite Hbr in Hrun. exists s6, new. auto.
Qed.

Lemma broken_stream_leaves_partial_file_witness :
  exists s' new,
    download_file Sample.broken model_url ([Sample.cwd] ++ ["vosk-model.zip"])
      Sample.with_script = (Raise ChunkedEncodingError, s') /\
    fs_lookup ([Sample.cwd] ++ ["vosk-model.zip"]) (fs s')
      = Some (File (body [[x50; x4b]])) /\
    trace s' =
      trace Sample.with_script ++
      [EvPrint "Downloading Vosk model..."; EvGet model_url;
       EvOpenWb ([Sample.cwd] ++ ["vosk-model.zip"])] ++ new /\
    Forall (transfer_event ([Sample.cwd] ++ ["vosk-model.zip"])) new.
Proof.
  apply (broken_stream_leaves_partial_file
           (mkResponse 200 (Present (Some 4)) [[x50; x4b]] true) model_url
           [Sample.cwd] "vosk-model.zip" Sample.with_script
           [("setup_vosk.py", File [x23; x21]);
            ("vosk-model.zip", File [x00; x00; x00])]).
  - reflexivity.
  - discriminate.
  - reflexivity.
  - reflexivity.
  - intros sub H. discriminate H.
Defined.

(** X3.  When the server answers with a status that is no error, a
    readable (or no) [content-length] and an unbroken stream, and the
    destination lies in an existing directory and is not itself a
    directory, [download_file] succeeds; the destination then holds exactly
    the chunks in the order received, whatever it held before, and nothing
    outside it has changed. *)
Theorem download_writes_the_chunks
    (r : response) (url : string) (parent : path) (name : string) (s : state)
    (es : list (string * node)) :
  is_error_status (status_code r) = false ->
  content_length r <> Present None ->
  stream_broken r = false ->
  fs_lookup parent (fs s) = Some (Dir es) ->
  (forall sub, entry_get name es <> Some (Dir sub)) ->
  exists s',
    download_file (Responds r) url (parent ++ [name]) s = (Ok tt, s') /\
    fs_lookup (parent ++ [name]) (fs s') = Some (File (body (chunks r))) /\
    forall q, diverge (parent ++ [name]) q = true ->
              fs_lookup q (fs s') = fs_lookup q (fs s).
Proof.
  intros Hst Hcl Hbr Hparent Hname.
  destruct (download_file_opened r url parent name s es Hst Hcl Hparent Hname)
    as (s6 & new & Hl6 & _ & _ & Hrun).
  rewrite Hbr in Hrun. eexists. split; [exact Hrun|]. split; [exact Hl6|].
  intros q Hq.
  exact (download_file_keeps q (parent ++ [name]) (Responds r) url Hq _ _ _ Hrun).
Qed.

Lemma download_writes_the_chunks_witness :
  exists s',
    download_file Sample.good model_url ([Sample.cwd] ++ ["vosk-model.zip"])
      Sample.with_script = (Ok tt, s') /\
    fs_lookup ([Sample.cwd] ++ ["vosk-model.zip"]) (fs s')
      = Some (File (body [[x50; x4b]; []; [x05; x06]])) /\
    forall q, diverge ([Sample.cwd] ++ ["vosk-model.zip"]) q = true ->
              fs_lookup q (fs s') = fs_lookup q (fs Sample.with_script).
Proof.
  apply (download_writes_the_chunks
           (mkResponse 200 (Present (Some 4)) [[x50; x4b]; []; [x05; x06]] false)
           model_url [Sample.cwd] "vosk-model.zip" Sample.with_script
           [("setup_vosk.py", File [x23; x21]);
            ("vosk-model.zip", File [x00; x00; x00])]).
  - reflexivity.
  - discriminate.
  - reflexivity.
  - reflexivity.
  - intros sub H. discriminate H.
Defined.

(** ** The run, step by step *)

Section Further.

Variable cwd : string.
Variable unzip : bytes -> option (list member).

(** X5.  When the downloaded bytes are not a readable archive, the run
    dies of [BadZipFile] at line 39, before any member is extracted and
    before the install step: the extraction directory and the destination
    are what they were before the run, and the useless archive stays on
    disk. *)
Theorem bad_archive_aborts_before_extraction
    (net : network) (r : response) (s sf : state) :
  net = Responds r ->
  unzip (body (chunks r)) = None ->
  bind banner (fun _ => fetch cwd net) s = (Ok tt, sf) ->
  main cwd unzip net s =
    (Raise BadZipFile,
     mkState (fs sf)
       (trace sf ++ [EvPrint "Extracting model...";
                     EvExtractall (model_zip cwd) (extract_dir cwd)])) /\
  fs_lookup (model_zip cwd) (fs sf) = Some (File (body (chunks r))) /\
  fs_lookup (extract_dir cwd) (fs sf) = fs_lookup (extract_dir cwd) (fs s) /\
  fs_lookup dest_model (fs sf) = fs_lookup dest_model (fs s).
Proof.
  intros Hnet Hbad Hf.
  apply bind_Ok_inv in Hf. destruct Hf as ([] & s0 & Hb & Hf).
  destruct (fetch_Ok_inv cwd net s0 sf Hf) as (r' & Hnet' & Hzip).
  assert (r' = r) by congruence. subst r'.
  pose proof (banner_fs _ _ _ Hb) as [_ Hb0].
  repeat split.
  - unfold main. rewrite (bind_Ok _ _ _ _ _ _ _ Hb), (bind_Ok _ _ _ _ _ _ _ Hf).
    apply bind_Raise.
    unfold extract, extractall, print, read_file, bind, emit, get_fs, raise.
    cbn [fs trace]. rewrite Hzip. unfold ret. rewrite Hbad.
    now rewrite <- app_assoc.
  - exact Hzip.
  - rewrite <- Hb0.
    exact (fetch_keeps cwd (extract_dir cwd) net (zip_off_extract_dir cwd) _ _ _ Hf).
  - rewrite <- Hb0.
    exact (fetch_keeps cwd dest_model net (zip_off_dest cwd) _ _ _ Hf).
Qed.

(** X6.  Whatever the outcome of a run, the program changes nothing
    outside the archive file, the extraction directory and the assets
    directory: what is at any path that diverges from these three is the
    same after the run as before. *)
Theorem run_touches_three_places
    (net : network) (s s' : state) (r : result unit) (q : path) :
  main cwd unzip net s = (r, s') ->
  diverge (model_zip cwd) q = true ->
  diverge (extract_dir cwd) q = true ->
  diverge android_assets q = true ->
  fs_lookup q (fs s') = fs_lookup q (fs s).
Proof.
  intros Hrun Hz Hx Ha.
  assert (Hk : steps (keeps q) (main cwd unzip net)).
  { unfold main.
    apply steps_bind; [eauto | apply banner_keeps | intros _].
    apply steps_bind; [eauto | now apply fetch_keeps | intros _].
    apply steps_bind; [eauto | now apply extract_keeps | intros _].
    apply steps_bind; [eauto | now apply install_keeps | intros _].
    apply steps_bind; [eauto | now apply cleanup_keeps | intros _].
    apply report_keeps. }
  exact (Hk _ _ _ Hrun).
Qed.

(** An install up to its test of the destination, when something is at
    the install path and something is selected. *)
Lemma install_with_destination (s : state) (n : node) (src : path) :
  fs_lookup dest_model (fs s) = Some n ->
  selected cwd (fs s) = Some src ->
  exists root1,
    fs_lookup dest_model root1 = Some n /\
    fs_lookup src root1 = fs_lookup src (fs s) /\
    install cwd s =
      bind (rmtree dest_model)
           (fun _ => bind (copytree src dest_model)
              (fun _ => print "Model copied to: ../android/app/src/main/assets/vosk/model"))
           (mkState root1
              (trace s ++ [EvMkdir android_assets;
                           EvGlob (extract_dir cwd) "vosk-model-";
                           EvExists dest_model])).
Proof.
  intros Hd Hsel.
  assert (Hassets : exists es, fs_lookup android_assets (fs s) = Some (Dir es)).
  { unfold dest_model in Hd. rewrite fs_lookup_app in Hd.
    destruct (fs_lookup android_assets (fs s)) as [[d|es]|]; try discriminate; eauto. }
  destruct Hassets as [es Hassets].
  destruct (fs_alter_reaches true do_mkdir_exist_ok android_assets (fs s) (Dir es)
              (Some (Dir es))) as (root1 & Hmk & _); auto.
  { unfold android_assets. discriminate. }
  assert (Hd1 : fs_lookup dest_model root1 = Some n).
  { rewrite <- Hd. unfold dest_model. now apply mkdir_exist_ok_below. }
  assert (Hx1 : fs_lookup (extract_dir cwd) root1 = fs_lookup (extract_dir cwd) (fs s)).
  { eapply fs_alter_frame; eauto. }
  destruct (selected_inside _ _ _ Hsel) as [name ->].
  exists root1. split; [exact Hd1|]. split.
  { eapply fs_alter_frame; eauto. }
  unfold install.
  assert (H1 : mkdir_parents_exist_ok android_assets s =
               (Ok tt, mkState root1 (trace s ++ [EvMkdir android_assets]))).
  { unfold mkdir_parents_exist_ok, bind, emit, syscall. cbn [fs trace]. now rewrite Hmk. }
  rewrite (bind_Ok _ _ _ _ _ _ _ H1).
  unfold selected in Hsel. rewrite <- (glob_prefix_local _ _ _ _ Hx1) in Hsel.
  unfold glob, path_exists, index0.
  unfold bind at 1 2 3 4 5 6 7. unfold emit at 1 2. unfold get_fs at 1 2.
  unfold ret at 1 2. cbn [fs trace].
  destruct (glob_prefix (extract_dir cwd) "vosk-model-" root1) as [|m ms];
    [discriminate|].
  injection Hsel as ->. unfold ret at 1. cbn [fs trace]. rewrite Hd1.
  now rewrite <- !app_assoc.
Qed.

(** X7.  When a plain file (not a directory) is at the install path and
    the extraction directory has a match, the install step raises
    [NotADirectoryError] at its [rmtree]: nothing is copied, and the file is
    still at the install path. *)
Theorem install_refuses_file_destination (s : state) (data : bytes) (src : path) :
  fs_lookup dest_model (fs s) = Some (File data) ->
  selected cwd (fs s) = Some src ->
  exists s',
    install cwd s = (Raise NotADirectoryError, s') /\
    fs_lookup dest_model (fs s') = Some (File data) /\
    trace s' =
      trace s ++ [EvMkdir android_assets; EvGlob (extract_dir cwd) "vosk-model-";
                  EvExists dest_model; EvRmtree dest_model].
Proof.
  intros Hd Hsel.
  destruct (install_with_destination s _ src Hd Hsel) as (root1 & Hd1 & _ & Hrun).
  eexists. split; [|split].
  - rewrite Hrun. apply bind_Raise.
    unfold rmtree, bind, emit, syscall. cbn [fs trace].
    rewrite (fs_alter_refused false do_rmtree dest_model root1 (File data)
               NotADirectoryError Hd1 eq_refl).
    reflexivity.
  - exact Hd1.
  - cbn [trace]. now rewrite <- app_assoc.
Qed.

(** X8.  [glob] matches files as well as directories.  When the first
    match is a plain file and a model directory is installed, the install
    step removes the installed directory and then raises
    [NotADirectoryError] at [copytree]: the run ends with no model at the
    install path. *)
Theorem file_match_loses_destination
    (s : state) (src : path) (data : bytes) (old : list (string * node)) :
  selected cwd (fs s) = Some src ->
  fs_lookup src (fs s) = Some (File data) ->
  fs_lookup dest_model (fs s) = Some (Dir old) ->
  exists s',
    install cwd s = (Raise NotADirectoryError, s') /\
    fs_lookup dest_model (fs s') = None /\
    trace s' =
      trace s ++ [EvMkdir android_assets; EvGlob (extract_dir cwd) "vosk-model-";
                  EvExists dest_model; EvRmtree dest_model;
                  EvCopytree src dest_model].
Proof.
  intros Hsel Hsrc Hd.
  destruct (install_with_destination s _ src Hd Hsel) as (root1 & Hd1 & Hsrc1 & Hrun).
  destruct (fs_alter_reaches false do_rmtree dest_model root1 (Dir old) None)
    as (root5 & Hrm & Hd5); auto.
  { unfold dest_model, android_assets. discriminate. }
  assert (Hsrc5 : fs_lookup src root5 = Some (File data)).
  { rewrite <- Hsrc, <- Hsrc1.
    destruct (selected_inside _ _ _ Hsel) as [name ->].
    eapply fs_alter_frame; eauto. }
  eexists. split; [|split].
  - rewrite Hrun.
    assert (H5 : rmtree dest_model
                   (mkState root1
                      (trace s ++ [EvMkdir android_assets;
                                   EvGlob (extract_dir cwd) "vosk-model-";
                                   EvExists dest_model])) =
                 (Ok tt, mkState root5
                           ((trace s ++ [EvMkdir android_assets;
                                         EvGlob (extract_dir cwd) "vosk-model-";
                                         EvExists dest_model])
                            ++ [EvRmtree dest_model]))).
    { unfold rmtree, bind, emit, syscall. cbn [fs trace]. now rewrite Hrm. }
    rewrite (bind_Ok _ _ _ _ _ _ _ H5). apply bind_Raise.
    unfold copytree, bind, emit, get_fs, raise. cbn [fs trace]. rewrite Hsrc5.
    reflexivity.
  - exact Hd5.
  - cbn [trace]. now rewrite <- !app_assoc.
Qed.

(** After an install that succeeded the clean-up has what it removes. *)
Lemma cleanup_after_install (s : state) (data : bytes) (es : list (string * node)) :
  fs_lookup (model_zip cwd) (fs s) = Some (File data) ->
  fs_lookup (extract_dir cwd) (fs s) = Some (Dir es) ->
  exists s', cleanup cwd s = (Ok tt, s').
Proof.
  intros Hz Hx.
  destruct (fs_alter_reaches false do_unlink (model_zip cwd) (fs s) (File data) None)
    as (root1 & Hun & _); auto.
  { unfold model_zip. discriminate. }
  assert (Hx1 : fs_lookup (extract_dir cwd) root1 = Some (Dir es)).
  { rewrite <- Hx. eapply fs_alter_frame; eauto. }
  destruct (fs_alter_reaches false do_rmtree (extract_dir cwd) root1 (Dir es) None)
    as (root2 & Hrm & _); auto.
  { unfold extract_dir. discriminate. }
  eexists. unfold cleanup, unlink, rmtree, bind, emit, syscall. cbn [fs trace].
  rewrite Hun. cbn [fs trace]. rewrite Hrm. reflexivity.
Qed.

Lemma selected_in_directory (root : node) (src : path) :
  selected cwd root = Some src ->
  exists es, fs_lookup (extract_dir cwd) root = Some (Dir es).
Proof.
  unfold selected, glob_prefix.
  destruct (fs_lookup (extract_dir cwd) root) as [[d|es]|]; try discriminate; eauto.
Qed.

(** X9.  The program can only fail in the fetch, extract or install step.
    Once the install has succeeded, the archive is a file and the
    extraction directory a directory, so the [unlink] and the [rmtree] of
    the clean-up go through, and the report cannot raise: a run that ends
    in an exception ended in one of the first three steps. *)
Theorem run_fails_only_before_cleanup
    (net : network) (s s' : state) (e : exn) :
  main cwd unzip net s = (Raise e, s') ->
  bind banner (fun _ => bind (fetch cwd net) (fun _ =>
    bind (extract cwd unzip) (fun _ => install cwd))) s = (Raise e, s').
Proof.
  unfold main. intros H. unfold bind at 1 2 3 4 in H. unfold bind at 1 2 3.
  destruct (banner s) as [[[]|e0] s0] eqn:Hb; [|exact H].
  destruct (fetch cwd net s0) as [[[]|e1] sf] eqn:Hf; [|exact H].
  destruct (extract cwd unzip sf) as [[[]|e2] sx] eqn:Hx; [|exact H].
  destruct (install cwd sx) as [[[]|e3] si] eqn:Hi; [|exact H].
  exfalso.
  destruct (fetch_Ok_inv cwd net s0 sf Hf) as (r & _ & Hzip).
  destruct (install_Ok_inv cwd sx si Hi) as (src & tree & Hsel & _).
  destruct (selected_in_directory _ _ Hsel) as [es Hdir].
  assert (Hzi : fs_lookup (model_zip cwd) (fs si) = Some (File (body (chunks r)))).
  { rewrite <- Hzip.
    rewrite (install_keeps cwd (model_zip cwd) (assets_off_zip cwd) _ _ _ Hi).
    exact (extract_keeps cwd unzip (model_zip cwd) (extract_dir_off_zip cwd) _ _ _ Hx). }
  assert (Hxi : fs_lookup (extract_dir cwd) (fs si) = Some (Dir es)).
  { rewrite <- Hdir.
    exact (install_keeps cwd (extract_dir cwd) (assets_off_extract_dir cwd) _ _ _ Hi). }
  destruct (cleanup_after_install si _ _ Hzi Hxi) as [sc Hc].
  rewrite (bind_Ok _ _ _ _ _ _ _ Hc) in H.
  apply report_fs in H. destruct H as [H _]. discriminate.
Qed.

Lemma tree_size_nonneg : forall n : node, 0 <= tree_size n.
Proof.
  fix IH 1. intros [data|es].
  - simpl. lia.
  - simpl. induction es as [|[k child] es IHes].
    + lia.
    + specialize (IH child). lia.
Qed.

(** X10.  A run that succeeds ends with the two calls of the clean-up, the
    success line and the size line, in this order, and the size printed is
    the total number of bytes of the files in the installed directory (a
    number that is not negative), measured after the clean-up. *)
Theorem report_prints_installed_size (net : network) (s s' : state) :
  main cwd unzip net s = (Ok tt, s') ->
  exists (tree : list (string * node)) (before : list event),
    fs_lookup dest_model (fs s') = Some (Dir tree) /\
    trace s' =
      before ++ [EvUnlink (model_zip cwd); EvRmtree (extract_dir cwd);
                 EvPrint "Success! Vosk model ready for offline STT";
                 EvRglob dest_model; EvSize (tree_size (Dir tree))] /\
    0 <= tree_size (Dir tree).
Proof.
  intros H. pose proof (main_Ok_inv cwd unzip net s s' H) as Hinv.
  destruct Hinv as (r & sf & sx & src & tree & _ & _ & _ & _ & _ & _ & _ & Hdst & _).
  unfold main in H.
  apply bind_Ok_inv in H. destruct H as ([] & s0 & _ & H).
  apply bind_Ok_inv in H. destruct H as ([] & s1 & _ & H).
  apply bind_Ok_inv in H. destruct H as ([] & s2 & _ & H).
  apply bind_Ok_inv in H. destruct H as ([] & si & _ & H).
  apply bind_Ok_inv in H. destruct H as ([] & sc & Hc & Hr).
  destruct (cleanup_Ok_inv cwd si sc Hc) as (_ & _ & Tc).
  exists tree, (trace si). split; [exact Hdst|]. split; [|apply tree_size_nonneg].
  pose proof (report_fs _ _ _ Hr) as [_ Hfs].
  unfold report, print, bind, emit, get_fs in Hr. cbn [fs trace] in Hr.
  injection Hr as <-. cbn [fs trace] in *. rewrite Hdst, Tc.
  now rewrite <- !app_assoc.
Qed.

End Further.

(** ** These properties on the sample runs *)

Lemma bad_archive_aborts_before_extraction_witness :
  main Sample.cwd Sample.unzip Sample.not_a_zip Sample.with_script =
    (Raise BadZipFile,
     mkState (fs Sample.with_script_fetched)
       (trace Sample.with_script_fetched ++
        [EvPrint "Extracting model...";
         EvExtractall (model_zip Sample.cwd) (extract_dir Sample.cwd)])) /\
  fs_lookup (model_zip Sample.cwd) (fs Sample.with_script_fetched)
    = Some (File (body [[x3c; x68]])) /\
  fs_lookup (extract_dir Sample.cwd) (fs Sample.with_script_fetched)
    = fs_lookup (extract_dir Sample.cwd) (fs Sample.with_script) /\
  fs_lookup dest_model (fs Sample.with_script_fetched)
    = fs_lookup dest_model (fs Sample.with_script).
Proof.
  apply (bad_archive_aborts_before_extraction Sample.cwd Sample.unzip Sample.not_a_zip
           (mkResponse 200 Absent [[x3c; x68]] false)
           Sample.with_script Sample.with_script_fetched); reflexivity.
Defined.

Lemma run_touches_three_places_witness :
  fs_lookup [Sample.cwd; "setup_vosk.py"] (fs Sample.with_script_done) =
  fs_lookup [Sample.cwd; "setup_vosk.py"] (fs Sample.with_script).
Proof.
  apply (run_touches_three_places Sample.cwd Sample.unzip Sample.good
           Sample.with_script Sample.with_script_done (Ok tt)
           [Sample.cwd; "setup_vosk.py"]); reflexivity.
Defined.

Lemma install_refuses_file_destination_witness :
  exists s',
    install Sample.cwd Sample.dest_is_file_extracted = (Raise NotADirectoryError, s') /\
    fs_lookup dest_model (fs s') = Some (File [x09]) /\
    trace s' =
      trace Sample.dest_is_file_extracted ++
      [EvMkdir android_assets; EvGlob (extract_dir Sample.cwd) "vosk-model-";
       EvExists dest_model; EvRmtree dest_model].
Proof.
  apply (install_refuses_file_destination Sample.cwd Sample.dest_is_file_extracted
           [x09] (extract_dir Sample.cwd ++ [Sample.model_name])); reflexivity.
Defined.

Lemma file_match_loses_destination_witness :
  exists s',
    install Sample.cwd Sample.file_match = (Raise NotADirectoryError, s') /\
    fs_lookup dest_model (fs s') = None /\
    trace s' =
      trace Sample.file_match ++
      [EvMkdir android_assets; EvGlob (extract_dir Sample.cwd) "vosk-model-";
       EvExists dest_model; EvRmtree dest_model;
       EvCopytree (extract_dir Sample.cwd ++ ["vosk-model-readme.txt"]) dest_model].
Proof.
  apply (file_match_loses_destination Sample.cwd Sample.file_match
           (extract_dir Sample.cwd ++ ["vosk-model-readme.txt"]) [x00]
           [("previous.bin", File [x09])]); reflexivity.
Defined.

Lemma run_fails_only_before_cleanup_witness :
  bind banner (fun _ => bind (fetch Sample.cwd Sample.good) (fun _ =>
    bind (extract Sample.cwd Sample.unzip) (fun _ => install Sample.cwd)))
    Sample.dest_is_file = (Raise NotADirectoryError, Sample.dest_is_file_aborted).
Proof.
  apply (run_fails_only_before_cleanup Sample.cwd Sample.unzip Sample.good
           Sample.dest_is_file Sample.dest_is_file_aborted NotADirectoryError).
  reflexivity.
Defined.

Lemma report_prints_installed_size_witness :
  exists (tree : list (string * node)) (before : list event),
    fs_lookup dest_model (fs Sample.fresh_done) = Some (Dir tree) /\
    trace Sample.fresh_done =
      before ++ [EvUnlink (model_zip Sample.cwd); EvRmtree (extract_dir Sample.cwd);
                 EvPrint "Success! Vosk model ready for offline STT";
                 EvRglob dest_model; EvSize (tree_size (Dir tree))] /\
    0 <= tree_size (Dir tree).
Proof.
  apply (report_prints_installed_size Sample.cwd Sample.unzip Sample.good
           Sample.fresh Sample.fresh_done).
  reflexivity.
Defined.

(** ** Two more edges *)

Lemma mkdir_exist_ok_blocked (p : path) (o : option node) :
  blocked p o = true ->
  exists e,
    alter_opt true do_mkdir_exist_ok p o = Raise e /\
    (e = FileExistsError \/ e = NotADirectoryError).
Proof.
  revert o. induction p as [|c p IH]; intros o Hb.
  - destruct o as [[data|es]|]; simpl in *; try discriminate.
    exists FileExistsError. auto.
  - destruct o as [[data|es]|]; simpl in *; try discriminate.
    + exists NotADirectoryError. auto.
    + destruct (IH _ Hb) as (e & -> & He). eauto.
Qed.

(** X11.  When a file lies on the path of the assets directory
    ([../android], [../android/app], ... or the directory itself is a plain
    file), line 46 raises [FileExistsError] or [NotADirectoryError] and the
    install step ends there: the extraction directory is not even listed
    and the file system is as it was. *)
Theorem install_blocked_by_file (cwd : string) (s : state) :
  blocked android_assets (Some (fs s)) = true ->
  exists e,
    install cwd s = (Raise e, mkState (fs s) (trace s ++ [EvMkdir android_assets])) /\
    (e = FileExistsError \/ e = NotADirectoryError).
Proof.
  intros Hb. destruct (mkdir_exist_ok_blocked _ _ Hb) as (e & Ha & He).
  exists e. split; [|exact He].
  unfold install. apply bind_Raise.
  unfold mkdir_parents_exist_ok, bind, emit, syscall, fs_alter. cbn [fs trace].
  now rewrite Ha.
Qed.

Lemma install_blocked_by_file_witness :
  exists e,
    install Sample.cwd Sample.app_is_file =
      (Raise e, mkState (fs Sample.app_is_file)
                  (trace Sample.app_is_file ++ [EvMkdir android_assets])) /\
    (e = FileExistsError \/ e = NotADirectoryError).
Proof.
  apply (install_blocked_by_file Sample.cwd Sample.app_is_file). reflexivity.
Defined.

(** X12.  Without a positive declared length (no [content-length] header,
    or one that reads as 0 or less) the whole download loop prints no
    progress line: on an open destination file it runs to its end and its
    trace is one [write] per non-empty chunk, in order, and nothing else. *)
Theorem no_progress_without_length
    (dest : path) (total : Z) (l : list bytes) (d : Z) (data : bytes) (s : state) :
  total <= 0 ->
  fs_lookup dest (fs s) = Some (File data) ->
  exists d' s',
    download_loop dest total l d s = (Ok d', s') /\
    trace s' =
      trace s ++
      map (fun chunk => EvWrite dest (List.length chunk))
          (filter (fun chunk => negb (Nat.eqb (List.length chunk) 0)) l).
Proof.
  intros Ht. revert d data s. induction l as [|chunk l IH]; intros d data s Hl.
  - exists d, s. simpl. now rewrite app_nil_r.
  - destruct chunk as [|b chunk].
    + destruct (IH d data s Hl) as (d' & s' & Hrun & Htr).
      exists d', s'. simpl. unfold bind, ret. auto.
    + destruct (write_present dest (b :: chunk) data s Hl) as (s1 & Hw & Hl1 & T1).
      destruct (IH (d + Z.of_nat (List.length (b :: chunk))) _ s1 Hl1)
        as (d' & s' & Hrun & Htr).
      assert (Hc : download_chunk dest total d (b :: chunk) s =
                   (Ok (d + Z.of_nat (List.length (b :: chunk))), s1)).
      { unfold download_chunk. rewrite (bind_Ok _ _ _ _ _ _ _ Hw).
        assert (E : (0 <? total) = false) by (apply Z.ltb_ge; lia).
        rewrite E. reflexivity. }
      exists d', s'. split.
      * cbn [download_loop]. now rewrite (bind_Ok _ _ _ _ _ _ _ Hc).
      * rewrite Htr, T1. cbn [filter map List.length Nat.eqb negb].
        now rewrite <- app_assoc.
Qed.

Lemma no_progress_without_length_witness :
  exists d' s',
    download_loop (model_zip Sample.cwd) 0 [[x50; x4b]; []; [x05; x06]] 0
      (mkState (Dir [(Sample.cwd, Dir [("vosk-model.zip", File [])])]) [])
      = (Ok d', s') /\
    trace s' =
      trace (mkState (Dir [(Sample.cwd, Dir [("vosk-model.zip", File [])])]) []) ++
      map (fun chunk => EvWrite (model_zip Sample.cwd) (List.length chunk))
          (filter (fun chunk => negb (Nat.eqb (List.length chunk) 0))
                  [[x50; x4b]; []; [x05; x06]]).
Proof.
  apply (no_progress_without_length (model_zip Sample.cwd) 0
           [[x50; x4b]; []; [x05; x06]] 0 []
           (mkState (Dir [(Sample.cwd, Dir [("vosk-model.zip", File [])])]) [])).
  - lia.
  - reflexivity.
Defined.

(* ================================================================== *)
(** * The progress figure *)
(* ================================================================== *)

(** The quotient of a positive [int] by itself, before rounding: 2^53
    units of 2^-53, exactly. *)
Lemma div_core_self (p : positive) :
  SFdiv_core_binary 53 1024 (Zpos p) 0 (Zpos p) 0 = (2 ^ 53, -53, loc_Exact).
Proof.
  unfold SFdiv_core_binary.
  replace (Zdigits2 (Zpos p) + 0 - (Zdigits2 (Zpos p) + 0)) with 0 by lia.
  change (Z.min (fexp 53 1024 0) (0 - 0)) with (-53).
  change (0 - 0 - -53) with 53.
  cbv iota beta zeta.
  rewrite Z.shiftl_mul_pow2 by lia.
  assert (E : Z.div_eucl (Zpos p * 2 ^ 53) (Zpos p) = (2 ^ 53, 0)).
  { pose proof (Z.div_eucl_eq (Zpos p * 2 ^ 53) (Zpos p)) as H.
    pose proof (Z.mod_pos_bound (Zpos p * 2 ^ 53) (Zpos p)) as Hb.
    unfold Z.modulo in Hb.
    destruct (Z.div_eucl (Zpos p * 2 ^ 53) (Zpos p)) as [q r].
    assert (Hp : 0 < Zpos p) by lia.
    specialize (H ltac:(lia)). specialize (Hb Hp).
    assert (q = 2 ^ 53) by nia. subst q. f_equal. lia. }
  rewrite E. unfold new_location, new_location_even, new_location_odd.
  destruct (Z.even (Zpos p)); reflexivity.
Qed.

(** [t / t] is the double 1.0. *)
Lemma true_divide_self (t : Z) :
  0 < t -> true_divide t t = S754_finite false 4503599627370496 (-52).
Proof.
  intros Ht. destruct t as [|p|p]; try lia.
  unfold true_divide, float_of_int, SFdiv. rewrite div_core_self.
  vm_compute. reflexivity.
Qed.

Lemma full_length_reads_100 (t : Z) : 0 < t -> format_1f (percent t t) = 1000.
Proof.
  intros Ht. unfold percent. rewrite true_divide_self by assumption.
  vm_compute. reflexivity.
Qed.

(** The figure follows the double, not the exact quotient: 0.05 % and
    0.15 % are no ties once rounded to doubles, 0.55 % falls below 0.55, and
    one byte more than 2^53 of 2^53 is the double 100. *)
Lemma format_1f_follows_the_double :
  map (fun d => format_1f (percent d 16384000)) [8192; 16384; 24576] = [1; 1; 1] /\
  map (fun d => format_1f (percent d 2000)) [1; 3; 11] = [1; 1; 5] /\
  percent (2 ^ 53 + 1) (2 ^ 53) = percent (2 ^ 53) (2 ^ 53) /\
  format_1f (percent 9011702854368364 9007199254740993) = 1000.
Proof. repeat split; vm_compute; reflexivity. Qed.

Lemma body_cons (chunk : bytes) (l : list bytes) : body (chunk :: l) = chunk ++ body l.
Proof. reflexivity. Qed.

(** Chunks that are all empty leave the loop where it is. *)
Lemma download_loop_empty_body (dest : path) (total : Z) (l : list bytes) (d : Z)
    (s : state) :
  body l = [] -> download_loop dest total l d s = (Ok d, s).
Proof.
  revert d s. induction l as [|chunk l IH]; intros d s Hb; simpl.
  - reflexivity.
  - rewrite body_cons in Hb. apply app_eq_nil in Hb. destruct Hb as [-> Hb].
    simpl. unfold bind, ret. now apply IH.
Qed.

(** A loop that brings the counter to the declared length ends on the
    figure 100.0. *)
Lemma download_loop_ends_at_100 (dest : path) (total : Z) (l : list bytes) :
  0 < total ->
  forall (d d' : Z) (s s' : state),
    download_loop dest total l d s = (Ok d', s') ->
    d + Z.of_nat (List.length (body l)) = total ->
    body l <> [] ->
    exists pre n, trace s' = trace s ++ pre ++ [EvWrite dest n; EvProgress 1000].
Proof.
  intros Ht. induction l as [|chunk l IH]; intros d d' s s' Hrun Hlen Hne.
  - now destruct Hne.
  - simpl in Hrun. apply bind_Ok_inv in Hrun. destruct Hrun as (d1 & s1 & Hc & Hrun).
    rewrite body_cons in Hlen, Hne.
    destruct chunk as [|b chunk].
    + simpl in Hc. unfold ret in Hc. injection Hc as <- <-.
      now apply (IH d d').
    + unfold download_chunk in Hc.
      apply bind_Ok_inv in Hc. destruct Hc as ([] & sw & Hw & Hc).
      apply write_Ok_inv in Hw.
      assert (E : (0 <? total) = true) by (apply Z.ltb_lt; lia).
      rewrite E in Hc. unfold bind, emit, ret in Hc. cbn [fs trace] in Hc.
      injection Hc as <- <-.
      destruct (body l) as [|b0 rest] eqn:Hbody.
      * rewrite (download_loop_empty_body dest total l _ _ Hbody) in Hrun.
        injection Hrun as <- <-. cbn [trace].
        rewrite app_nil_r in Hlen.
        change (Z.pos (Pos.of_succ_nat (List.length chunk)))
          with (Z.of_nat (List.length (b :: chunk))).
        rewrite Hlen.
        rewrite (full_length_reads_100 total Ht).
        exists [], (List.length (b :: chunk)). rewrite Hw.
        now rewrite <- app_assoc.
      * rewrite length_app, Nat2Z.inj_add, Z.add_assoc in Hlen.
        destruct (IH _ d' _ s' Hrun) as (pre & n & Htr); [exact Hlen|discriminate|].
        exists ([EvWrite dest (List.length (b :: chunk));
                 EvProgress (format_1f
                               (percent (d + Z.of_nat (List.length (b :: chunk))) total))]
                ++ pre), n.
        rewrite Htr. cbn [trace]. rewrite Hw. now rewrite <- !app_assoc.
Qed.

(** With no positive declared length the loop prints no progress line. *)
Lemma download_loop_no_progress (dest : path) (total : Z) (l : list bytes) (d : Z) :
  total <= 0 ->
  steps (only_emits (fun ev => ~ progress_line ev)) (download_loop dest total l d).
Proof.
  intros Ht. assert (E : (0 <? total) = false) by (apply Z.ltb_ge; lia).
  revert d. induction l as [|chunk l IH]; intros d; simpl.
  - step_through.
  - apply steps_bind; [eauto | | auto].
    unfold download_chunk. rewrite E.
    step_through;
      first [ apply syscall_only_emits
            | apply emit_only_emits; intros [t Ev]; discriminate Ev ].
Qed.

(** The rule for [bind] when what follows is only safe for the values the
    first computation can yield. *)
Lemma steps_bind_val (R : state -> state -> Prop) (A B : Type)
    (m : M A) (k : A -> M B) (P : A -> Prop) :
  (forall s1 s2 s3, R s1 s2 -> R s2 s3 -> R s1 s3) ->
  (forall s a s1, m s = (Ok a, s1) -> P a) ->
  steps R m ->
  (forall a, P a -> steps R (k a)) ->
  steps R (bind m k).
Proof.
  intros Htrans HP Hm Hk s r s' H. apply bind_inv in H.
  destruct H as [(a & s1 & H1 & H2)|(e & H1 & _)].
  - apply Htrans with s1; [exact (Hm _ _ _ H1) | exact (Hk a (HP _ _ _ H1) _ _ _ H2)].
  - exact (Hm _ _ _ H1).
Qed.

Lemma download_file_no_progress (r : response) (url : string) (dest : path) :
  (content_length r = Absent \/
   exists total, content_length r = Present (Some total) /\ total <= 0) ->
  steps (only_emits (fun ev => ~ progress_line ev))
    (download_file (Responds r) url dest).
Proof.
  intros Hcl. unfold download_file.
  apply steps_bind; [eauto | | intros _].
  { apply emit_only_emits. intros [t Ev]. discriminate Ev. }
  apply (steps_bind_val _ _ _ _ _ (fun a => a = r)); [eauto | | | intros a ->].
  { intros s a s1 H. unfold requests_get, bind, emit, ret in H. congruence. }
  { unfold requests_get. step_through.
    apply emit_only_emits. intros [t Ev]. discriminate Ev. }
  apply steps_bind; [eauto | | intros _].
  { unfold raise_for_status. step_through. }
  apply (steps_bind_val _ _ _ _ _ (fun total => total <= 0)); [eauto | | | intros total Ht].
  { intros s a s1 H. unfold header_int in H.
    destruct Hcl as [Hcl|(total & Hcl & Ht)]; rewrite Hcl in H;
      unfold ret in H; injection H as <- _; lia. }
  { unfold header_int. step_through. }
  apply steps_bind; [eauto | | intros _].
  { unfold open_wb. step_through;
      first [ apply syscall_only_emits
            | apply emit_only_emits; intros [t Ev]; discriminate Ev ]. }
  apply steps_bind; [eauto | | intros _].
  { now apply download_loop_no_progress. }
  apply steps_bind; [eauto | | intros _].
  { step_through. }
  apply emit_only_emits. intros [t Ev]. discriminate Ev.
Qed.

(** C7, as the code has it.  When the declared length is positive and the
    download brings exactly that many bytes, the last progress line, printed
    after the last write and before "Download complete!", reads 100.0; the
    figure is the double [(downloaded / total) * 100] printed with one
    decimal, so it can read 100.0 before that (as the run above shows).
    When the header is absent, or reads as 0 or less, no progress line is
    printed in the whole download, whatever its outcome. *)
Theorem progress_percentage
    (r : response) (url : string) (dest : path) (s s' : state) (res : result unit) :
  download_file (Responds r) url dest s = (res, s') ->
  (forall total,
     content_length r = Present (Some total) ->
     0 < total ->
     Z.of_nat (List.length (body (chunks r))) = total ->
     res = Ok tt ->
     exists before n,
       trace s' = before ++ [EvWrite dest n; EvProgress 1000;
                             EvPrint "Download complete!"]) /\
  ((content_length r = Absent \/
    exists total, content_length r = Present (Some total) /\ total <= 0) ->
   exists new, trace s' = trace s ++ new /\ Forall (fun ev => ~ progress_line ev) new).
Proof.
  intros Hrun. split.
  - intros total Hcl Ht Hlen ->. unfold download_file in Hrun.
    apply bind_Ok_inv in Hrun. destruct Hrun as ([] & s1 & _ & H).
    apply bind_Ok_inv in H. destruct H as (r' & s2 & Hget & H).
    assert (r' = r) by (unfold requests_get, bind, emit, ret in Hget; congruence).
    subst r'.
    apply bind_Ok_inv in H. destruct H as ([] & s3 & _ & H).
    apply bind_Ok_inv in H. destruct H as (total' & s4 & Hh & H).
    assert (total' = total).
    { rewrite Hcl in Hh. unfold header_int, ret in Hh. congruence. }
    subst total'.
    apply bind_Ok_inv in H. destruct H as ([] & s5 & _ & H).
    apply bind_Ok_inv in H. destruct H as (d & s6 & Hloop & H).
    apply bind_Ok_inv in H. destruct H as ([] & s7 & Hbr & H).
    apply emit_inv in H. destruct H as [_ ->]. cbn [trace].
    assert (s7 = s6).
    { destruct (stream_broken r); [discriminate|]. unfold ret in Hbr. congruence. }
    subst s7.
    destruct (download_loop_ends_at_100 dest total (chunks r) Ht 0 d s5 s6 Hloop)
      as (pre & n & Htr).
    + lia.
    + intros Hb. rewrite Hb in Hlen. simpl in Hlen. lia.
    + exists (trace s5 ++ pre), n. rewrite Htr. now rewrite <- !app_assoc.
  - intros Hcl. exact (download_file_no_progress r url dest Hcl _ _ _ Hrun).
Qed.

Lemma progress_percentage_witness :
  download_file Sample.good model_url (model_zip Sample.cwd) Sample.fresh
    = (Ok tt, Sample.fresh_downloaded) /\
  exists before n,
    trace Sample.fresh_downloaded =
      before ++ [EvWrite (model_zip Sample.cwd) n; EvProgress 1000;
                 EvPrint "Download complete!"].
Proof.
  split; [reflexivity|].
  destruct (progress_percentage
              (mkResponse 200 (Present (Some 4)) [[x50; x4b]; []; [x05; x06]] false)
              model_url (model_zip Sample.cwd) Sample.fresh Sample.fresh_downloaded
              (Ok tt) eq_refl) as [Hfull _].
  apply (Hfull 4); [reflexivity | lia | reflexivity | reflexivity].
Defined.

(* ================================================================== *)
(** * Selection and copy *)
(* ================================================================== *)

Section Selection.

Variable cwd : string.




End Selection.


(* ================================================================== *)
(** * Statuses that are no success and no error *)
(* ================================================================== *)

(** C2, as the spec has it, fails: a status outside 200-299 need not be one
    [raise_for_status] raises on.  With the answer 300 and the archive as
    its body, the run does not abort: it succeeds and makes the destination
    that was not there. *)
Lemma status_300_is_not_rejected :
  ~ (200 <= 300 < 300) /\
  fs_lookup dest_model (fs Sample.fresh) = None /\
  exists s',
    main Sample.cwd Sample.unzip Sample.multiple_choices Sample.fresh = (Ok tt, s') /\
    fs_lookup dest_model (fs s') =
      Some (Dir [("README", File [x68; x69]);
                 ("am", Dir [("final.mdl", File [x01; x02; x03])])]).
Proof.
  split; [lia|]. split; [reflexivity|].
  eexists. split; [vm_compute; reflexivity | reflexivity].
Qed.
